(** * go-cloud-utils: Firebase auth helpers and Cloudflare D1 / KV / R2 clients

    A shallow embedding of the two packages of the repository
    ([firebase] and [cloudflare]) together with the pieces of the Go
    standard library they call, and the properties of the library that
    its specification states.

    Go strings are byte strings: they are [string]s here, one [ascii] per
    byte.  A Go [error] built with [errors.New] or [fmt.Errorf] exposes
    only its message, so an error is its message.  A Go function returning
    [(T, error)] returns a [result T]. *)

From Stdlib Require Import ZArith String Ascii List Lia.
From stdpp Require Import base option list strings gmap pretty.

Set Default Proof Using "Type".
Set Warnings "-register-all".
Local Open Scope Z_scope.

(** ** Pieces of the Go standard library used by the repository *)
Module Go.

Definition error := string.

Inductive result (T : Type) : Type :=
| Ok (x : T)
| Err (e : error).
Arguments Ok {T} x.
Arguments Err {T} e.

(** [strings.HasPrefix(s, prefix)] *)
Fixpoint HasPrefix (s prefix : string) {struct prefix} : bool :=
  match prefix with
  | EmptyString => true
  | String p prefix' =>
      match s with
      | EmptyString => false
      | String c s' => if Ascii.eqb c p then HasPrefix s' prefix' else false
      end
  end.

Fixpoint dropBytes (n : nat) (s : string) : string :=
  match n, s with
  | O, _ => s
  | S _, EmptyString => EmptyString
  | S n', String _ s' => dropBytes n' s'
  end.

(** [strings.TrimPrefix(s, prefix)]: [s] without the leading [prefix],
    and [s] itself when it does not start with [prefix]. *)
Definition TrimPrefix (s prefix : string) : string :=
  if HasPrefix s prefix then dropBytes (String.length prefix) s else s.

Definition byteIn (lo hi c : ascii) : bool :=
  (N_of_ascii lo <=? N_of_ascii c)%N && (N_of_ascii c <=? N_of_ascii hi)%N.

Definition isLower (c : ascii) : bool := byteIn "a" "z" c.
Definition isUpper (c : ascii) : bool := byteIn "A" "Z" c.
Definition isDigit (c : ascii) : bool := byteIn "0" "9" c.
Definition isAlnum (c : ascii) : bool := isLower c || isUpper c || isDigit c.

Definition byteOneOf (set : string) (c : ascii) : bool :=
  existsb (Ascii.eqb c) (list_ascii_of_string set).

Definition allBytes (p : ascii -> bool) (s : string) : bool :=
  forallb p (list_ascii_of_string s).

Definition toUpper (c : ascii) : ascii := ascii_of_N (N_of_ascii c - 32).
Definition toLower (c : ascii) : ascii := ascii_of_N (N_of_ascii c + 32).

(** *** net/textproto and net/http headers *)

(** [textproto.validHeaderFieldByte]: the token bytes of RFC 7230. *)
Definition validHeaderFieldByte (c : ascii) : bool :=
  isAlnum c || byteOneOf "!#$%&'*+-.^_`|~" c.

(** The canonicalising loop of [textproto.canonicalMIMEHeaderKey]: upper
    case at the start and after each dash, lower case elsewhere. *)
Fixpoint canonLoop (upper : bool) (s : string) : string :=
  match s with
  | EmptyString => EmptyString
  | String c s' =>
      let c' := if upper && isLower c then toUpper c
                else if negb upper && isUpper c then toLower c
                else c in
      String c' (canonLoop (Ascii.eqb c' "-") s')
  end.

(** [textproto.CanonicalMIMEHeaderKey]: a key holding a byte that is not a
    token byte (a space included) is returned unchanged. *)
Definition CanonicalMIMEHeaderKey (s : string) : string :=
  if allBytes validHeaderFieldByte s then canonLoop true s else s.

(** [http.Header], a [map[string][]string]. *)
Abbreviation Header := (gmap string (list string)).

Definition Header_Get (h : Header) (key : string) : string :=
  match h !! CanonicalMIMEHeaderKey key with
  | Some (v :: _) => v
  | _ => EmptyString
  end.

Definition Header_Add (h : Header) (key value : string) : Header :=
  let k := CanonicalMIMEHeaderKey key in
  <[k := default [] (h !! k) ++ [value]]> h.

Definition Header_Set (h : Header) (key value : string) : Header :=
  <[CanonicalMIMEHeaderKey key := [value]]> h.

Definition Header_Del (h : Header) (key : string) : Header :=
  delete (CanonicalMIMEHeaderKey key) h.

(** *** net/url escaping *)

Inductive encoding := encodePathSegment | encodeQueryComponent.

(** [url.shouldEscape] for the two modes the repository uses. *)
Definition shouldEscape (c : ascii) (mode : encoding) : bool :=
  if isAlnum c then false
  else if byteOneOf "-_.~" c then false
  else if byteOneOf "$&+,/:;=?@" c then
    match mode with
    | encodePathSegment => byteOneOf "/;,?" c
    | encodeQueryComponent => true
    end
  else true.

Definition upperhex (n : N) : ascii :=
  match String.get (N.to_nat n) "0123456789ABCDEF" with
  | Some c => c
  | None => "0"%char
  end.

(** [url.escape]: [%XX] with upper-case hex digits, and [+] for a space
    in a query component. *)
Fixpoint escape (s : string) (mode : encoding) : string :=
  match s with
  | EmptyString => EmptyString
  | String c s' =>
      if shouldEscape c mode then
        match mode with
        | encodeQueryComponent =>
            if Ascii.eqb c " " then String "+" (escape s' mode)
            else String "%" (String (upperhex (N_of_ascii c / 16))
                   (String (upperhex (N_of_ascii c mod 16)) (escape s' mode)))
        | encodePathSegment =>
            String "%" (String (upperhex (N_of_ascii c / 16))
              (String (upperhex (N_of_ascii c mod 16)) (escape s' mode)))
        end
      else String c (escape s' mode)
  end.


Definition PathEscape (s : string) : string := escape s encodePathSegment.
Definition QueryEscape (s : string) : string := escape s encodeQueryComponent.

(** [%d] of an integer. *)
Definition itoa (n : Z) : string := pretty n.

(** *** fmt: a format string rendered with no operands

    [fmt.Errorf(format)] and [fmt.Sprintf(format)] called with a format
    and nothing else run [doPrintf] with an empty operand list: text is
    copied, [%%] gives a percent sign, and every other directive is
    replaced by a complaint about its missing operand. *)

(** [utf8.DecodeRuneInString] followed by [writeRune], on a non-empty
    string: the bytes written for its first rune and how many bytes the
    rune takes.  An ill-formed sequence is one byte long and is written as
    U+FFFD. *)
Definition runeError : string :=
  String (ascii_of_N 239) (String (ascii_of_N 191) (String (ascii_of_N 189) EmptyString)).

Definition byteBetween (lo hi : N) (c : ascii) : bool :=
  (lo <=? N_of_ascii c)%N && (N_of_ascii c <=? hi)%N.

Definition contByte (c : ascii) : bool := byteBetween 128 191 c.

Definition decodeRune (c : ascii) (rest : string) : string * nat :=
  let n := N_of_ascii c in
  if (n <? 128)%N then (String c EmptyString, 1%nat)
  else
    let '(sz, lo, hi) :=
      if byteBetween 194 223 c then (2%nat, 128%N, 191%N)
      else if (n =? 224)%N then (3%nat, 160%N, 191%N)
      else if (n =? 237)%N then (3%nat, 128%N, 159%N)
      else if byteBetween 225 239 c then (3%nat, 128%N, 191%N)
      else if (n =? 240)%N then (4%nat, 144%N, 191%N)
      else if byteBetween 241 243 c then (4%nat, 128%N, 191%N)
      else if (n =? 244)%N then (4%nat, 128%N, 143%N)
      else (1%nat, 0%N, 0%N) in
    match sz, rest with
    | 2%nat, String c1 _ =>
        if byteBetween lo hi c1 then (String c (String c1 EmptyString), 2%nat)
        else (runeError, 1%nat)
    | 3%nat, String c1 (String c2 _) =>
        if byteBetween lo hi c1 && contByte c2
        then (String c (String c1 (String c2 EmptyString)), 3%nat)
        else (runeError, 1%nat)
    | 4%nat, String c1 (String c2 (String c3 _)) =>
        if byteBetween lo hi c1 && contByte c2 && contByte c3
        then (String c (String c1 (String c2 (String c3 EmptyString))), 4%nat)
        else (runeError, 1%nat)
    | _, _ => (runeError, 1%nat)
    end.

(** The flags loop. *)
Fixpoint skipFlags (s : string) : string :=
  match s with
  | EmptyString => EmptyString
  | String c s' => if byteOneOf "#0+- " c then skipFlags s' else s
  end.

(** [fmt.parsenum] on the digits at the head of [s]: whether a number was
    read, and the rest of the string; on a number beyond one million it
    gives up and jumps to the end of the format ([None]). *)
Fixpoint parsenum (num : Z) (isnum : bool) (s : string) : bool * option string :=
  match s with
  | EmptyString => (isnum, Some EmptyString)
  | String c s' =>
      if isDigit c then
        if (1000000 <? num) then (false, None)
        else parsenum (num * 10 + (Z.of_N (N_of_ascii c) - 48)) true s'
      else (isnum, Some s)
  end.

Fixpoint indexByte (c : ascii) (s : string) : option nat :=
  match s with
  | EmptyString => None
  | String d s' => if Ascii.eqb d c then Some O else S <$> indexByte c s'
  end.

(** [pp.argNumber] with no operands, on [s]: [None] when [s] does not
    start with a bracket; otherwise whether a well-formed index was found
    and the rest of the string.  Any index is out of range, so the caller
    clears [goodArgNum] whenever a bracket is seen. *)
Definition startsWith (c : ascii) (s : string) : bool :=
  match s with
  | String d _ => Ascii.eqb d c
  | EmptyString => false
  end.

Definition argNumber (s : string) : option (bool * string) :=
  match s with
  | EmptyString => None
  | String c r =>
      if negb (Ascii.eqb c "[") then None
      else if (String.length s <? 3)%nat then Some (false, r)
      else match indexByte "]" r with
           | None => Some (false, r)
           | Some j =>
               let ok := match parsenum 0 false r with
                         | (true, Some r') => startsWith "]" r'
                         | _ => false
                         end in
               Some (ok, dropBytes (S j) r)
           end
  end.

(** A position in the format: the text still to read, [None] once
    [parsenum] has jumped to the end. *)
Definition posLength (pos : option string) : nat :=
  match pos with
  | Some s => String.length s
  | None => O
  end.

(** The steps of one directive after the flags.  Each takes and returns
    [goodArgNum] and, until the verb, [afterIndex]. *)

(** An optional argument index. *)
Definition indexStep (good : bool) (s : string) : bool * bool * string :=
  match argNumber s with
  | Some (found, s') => (false, found, s')
  | None => (good, false, s)
  end.

(** The width: a star has no operand to take the width from. *)
Definition widthStep (good afterIndex : bool) (s : string)
  : string * bool * bool * option string :=
  if startsWith "*" s then ("%!(BADWIDTH)", good, false, Some (dropBytes 1 s))
  else let '(widPresent, pos) := parsenum 0 false s in
       ("", good && negb (afterIndex && widPresent), afterIndex, pos).

(** The precision, after a dot. *)
Definition precisionStep (good afterIndex : bool) (pos : option string)
  : string * bool * bool * option string :=
  match pos with
  | Some s =>
      if startsWith "." s then
        let '(good, afterIndex, s') :=
          indexStep (good && negb afterIndex) (dropBytes 1 s) in
        if startsWith "*" s' then ("%!(BADPREC)", good, false, Some (dropBytes 1 s'))
        else let '(_, pos) := parsenum 0 false s' in ("", good, afterIndex, pos)
      else ("", good, afterIndex, pos)
  | None => ("", good, afterIndex, pos)
  end.

(** The argument index before the verb, unless one was just read. *)
Definition lastIndexStep (good afterIndex : bool) (pos : option string)
  : bool * option string :=
  match pos with
  | Some s =>
      if afterIndex then (good, pos)
      else let '(good, _, s') := indexStep good s in (good, Some s')
  | None => (good, pos)
  end.

(** The verb: a percent sign is written as such, any other verb has no
    operand. *)
Definition verbStep (good : bool) (pos : option string) : string * option string :=
  match pos with
  | None | Some EmptyString => ("%!(NOVERB)", None)
  | Some (String c s') =>
      let '(verb, size) := decodeRune c s' in
      let rest := Some (dropBytes (Nat.pred size) s') in
      if Ascii.eqb c "%" then ("%", rest)
      else if good then ("%!" +:+ verb +:+ "(MISSING)", rest)
      else ("%!" +:+ verb +:+ "(BADINDEX)", rest)
  end.

(** One directive, the percent sign already consumed: what is written
    and where the format resumes ([None]: at its end). *)
Definition directive (s : string) : string * option string :=
  let '(good, afterIndex, s) := indexStep true (skipFlags s) in
  let '(out1, good, afterIndex, pos) := widthStep good afterIndex s in
  let '(out2, good, afterIndex, pos) := precisionStep good afterIndex pos in
  let '(good, pos) := lastIndexStep good afterIndex pos in
  let '(out3, rest) := verbStep good pos in
  (out1 +:+ out2 +:+ out3, rest).

(** The format loop of [doPrintf]; each round consumes at least one byte,
    so [String.length format] rounds are enough. *)
Fixpoint doPrintf (fuel : nat) (format : string) : string :=
  match fuel, format with
  | O, _ | _, EmptyString => EmptyString
  | S fuel', String c s' =>
      if Ascii.eqb c "%" then
        match directive s' with
        | (out, Some rest) => out +:+ doPrintf fuel' rest
        | (out, None) => out
        end
      else String c (doPrintf fuel' s')
  end.

Definition notPercent (c : ascii) : bool := negb (Ascii.eqb c "%").

(** [fmt.Sprintf(format)], and the message of [fmt.Errorf(format)]. *)
Definition Sprintf0 (format : string) : string :=
  doPrintf (String.length format) format.

Definition StatusOK : Z := 200.
Definition StatusUnauthorized : Z := 401.
Definition StatusNotFound : Z := 404.


(** *** net/url: the receiving side *)

(** [url.ishex] and [url.unhex] *)
Definition ishex (c : ascii) : bool :=
  isDigit c || byteIn "a" "f" c || byteIn "A" "F" c.

Definition unhex (c : ascii) : N :=
  if isDigit c then N_of_ascii c - 48
  else if byteIn "a" "f" c then N_of_ascii c - 97 + 10
  else if byteIn "A" "F" c then N_of_ascii c - 65 + 10
  else 0.

(** [url.unescape], behind [url.PathUnescape] and [url.QueryUnescape]:
    what the receiving end applies to a path segment or a query
    component.  A percent sign that is not followed by two hex digits is
    an error ([None]). *)
Fixpoint unescape (s : string) (mode : encoding) : option string :=
  match s with
  | EmptyString => Some EmptyString
  | String c s' =>
      if Ascii.eqb c "%" then
        match s' with
        | String hi (String lo rest) =>
            if ishex hi && ishex lo then
              match unescape rest mode with
              | Some t => Some (String (ascii_of_N (unhex hi * 16 + unhex lo)) t)
              | None => None
              end
            else None
        | _ => None
        end
      else
        match unescape s' mode with
        | Some t =>
            match mode with
            | encodeQueryComponent =>
                if Ascii.eqb c "+" then Some (String " " t) else Some (String c t)
            | encodePathSegment => Some (String c t)
            end
        | None => None
        end
  end.

Definition PathUnescape (s : string) : option string := unescape s encodePathSegment.
Definition QueryUnescape (s : string) : option string := unescape s encodeQueryComponent.


(** The path of a URL without fragment: what precedes the first question
    mark. *)
Fixpoint urlPath (url : string) : string :=
  match url with
  | EmptyString => EmptyString
  | String c rest => if Ascii.eqb c "?" then EmptyString else String c (urlPath rest)
  end.

End Go.

Import Go.

(** ** Package firebase (firebase/auth.go) *)
Module firebase.

(** [auth.Token] of the Firebase SDK: the verified claims of an ID token. *)
Record Token := {
  UID : string;
  Issuer : string;
  Subject : string;
  Claims : list (string * string);
}.

(** Keys of a [context.Context] are compared with their dynamic type:
    [contextKey] is the unexported string type of this package, and a key
    of any other type never equals one of its keys. *)
Inductive ctxKey :=
| contextKey (s : string)
| foreignKey (typ s : string).

Definition tokenKey : ctxKey := contextKey "token".
Definition uidKey : ctxKey := contextKey "uid".

Definition ctxKey_eqb (a b : ctxKey) : bool :=
  match a, b with
  | contextKey s, contextKey t => String.eqb s t
  | foreignKey ty s, foreignKey ty' t => String.eqb ty ty' && String.eqb s t
  | _, _ => false
  end.

(** The dynamically typed values ([interface{}]) a context can hold. *)
Inductive any :=
| anyString (s : string)
| anyToken (t : Token)
| anyOther (typ : string).

(** [context.Context]: the chain of [WithValue] bindings, innermost
    first, over [context.Background()]. *)
Definition Context := list (ctxKey * any).

Definition WithValue (ctx : Context) (k : ctxKey) (v : any) : Context :=
  (k, v) :: ctx.

Fixpoint Value (ctx : Context) (k : ctxKey) : option any :=
  match ctx with
  | [] => None
  | (k', v) :: parent => if ctxKey_eqb k' k then Some v else Value parent k
  end.

(** The part of an incoming [*http.Request] the package reads. *)
Record Request := {
  Method : string;
  Path : string;
  Header : Go.Header;
  Ctx : Context;
}.

Definition WithContext (r : Request) (ctx : Context) : Request :=
  {| Method := Method r; Path := Path r; Header := Header r; Ctx := ctx |}.

(** [http.ResponseWriter] is an interface; [W] is whatever state sits
    behind it. *)
Class ResponseWriter (W : Type) := {
  GetHeader : W -> Go.Header;
  PutHeader : Go.Header -> W -> W;
  Write : string -> W -> W;
  WriteHeader : Z -> W -> W;
}.

(** [http.Handler] / [http.HandlerFunc]: [ServeHTTP(w, r)]. *)
Definition Handler (W : Type) := W -> Request -> W.

Definition newline : string := String (ascii_of_N 10) EmptyString.

(** [http.Error(w, error, code)]: plain-text headers, the status line,
    then the message and a newline. *)
Definition http_Error {W} `{ResponseWriter W} (w : W) (msg : string) (code : Z) : W :=
  let h := GetHeader w in
  let h := Header_Del h "Content-Length" in
  let h := Header_Set h "Content-Type" "text/plain; charset=utf-8" in
  let h := Header_Set h "X-Content-Type-Options" "nosniff" in
  let w := PutHeader h w in
  let w := WriteHeader code w in
  Write (msg +:+ newline) w.

(** [FirebaseAuth]: the SDK's [auth.Client] is an external collaborator,
    present here through its [VerifyIDToken] method. *)
Record FirebaseAuth := {
  Auth_VerifyIDToken : Context -> string -> result Token;
}.

Definition VerifyIDToken (fa : FirebaseAuth) (ctx : Context) (idToken : string)
  : result Token :=
  if String.eqb idToken "" then Err "id token is empty"
  else match Auth_VerifyIDToken fa ctx idToken with
       | Err err => Err ("error verifying ID token: " +:+ err)
       | Ok token => Ok token
       end.

Definition errHeaderRequired : error := "authorization header is required".
Definition errHeaderFormat : error :=
  "authorization header must be in the format 'Bearer {token}'".

Definition GetTokenFromRequest (r : Request) : result string :=
  let authHeader := Header_Get (Header r) "Authorization" in
  if String.eqb authHeader "" then Err errHeaderRequired
  else if HasPrefix authHeader "Bearer " then Ok (TrimPrefix authHeader "Bearer ")
  else Err errHeaderFormat.

Definition AuthMiddleware {W} `{ResponseWriter W} (fa : FirebaseAuth)
    (next : Handler W) : Handler W :=
  fun w r =>
    match GetTokenFromRequest r with
    | Err err => http_Error w err StatusUnauthorized
    | Ok idToken =>
        match VerifyIDToken fa (Ctx r) idToken with
        | Err err => http_Error w ("Invalid token: " +:+ err) StatusUnauthorized
        | Ok token =>
            let ctx := WithValue (Ctx r) tokenKey (anyToken token) in
            let ctx := WithValue ctx uidKey (anyString (UID token)) in
            next w (WithContext r ctx)
        end
    end.

Definition RequireAuth {W} `{ResponseWriter W} (fa : FirebaseAuth)
    (next : Handler W) : Handler W :=
  fun w r =>
    match GetTokenFromRequest r with
    | Err err => http_Error w err StatusUnauthorized
    | Ok idToken =>
        match VerifyIDToken fa (Ctx r) idToken with
        | Err err => http_Error w ("Invalid token: " +:+ err) StatusUnauthorized
        | Ok token =>
            let ctx := WithValue (Ctx r) tokenKey (anyToken token) in
            let ctx := WithValue ctx uidKey (anyString (UID token)) in
            next w (WithContext r ctx)
        end
    end.

Definition GetUIDFromContext (ctx : Context) : result string :=
  match Value ctx uidKey with
  | Some (anyString uid) => Ok uid
  | _ => Err "uid not found in context or not a string"
  end.

Definition GetTokenFromContext (ctx : Context) : result Token :=
  match Value ctx tokenKey with
  | Some (anyToken token) => Ok token
  | _ => Err "token not found in context or not correct type"
  end.

(** Extraction followed by verification, the two steps both wrappers take
    before they decide. *)
Definition authenticate (fa : FirebaseAuth) (r : Request) : result Token :=
  match GetTokenFromRequest r with
  | Err err => Err err
  | Ok idToken => VerifyIDToken fa (Ctx r) idToken
  end.

(** *** A recording response writer, and a handler that logs its calls *)

(** The state of an [httptest.ResponseRecorder]: the first [WriteHeader]
    wins, and a [Write] before any [WriteHeader] sends status 200. *)
Record ResponseRecorder := {
  Code : Z;
  HeaderMap : Go.Header;
  Body : string;
  wroteHeader : bool;
}.

Definition NewRecorder : ResponseRecorder :=
  {| Code := 200; HeaderMap := ∅; Body := ""; wroteHeader := false |}.

Definition rec_WriteHeader (code : Z) (w : ResponseRecorder) : ResponseRecorder :=
  if wroteHeader w then w
  else {| Code := code; HeaderMap := HeaderMap w; Body := Body w; wroteHeader := true |}.

Definition rec_Write (data : string) (w : ResponseRecorder) : ResponseRecorder :=
  let w := rec_WriteHeader 200 w in
  {| Code := Code w; HeaderMap := HeaderMap w; Body := Body w +:+ data;
     wroteHeader := wroteHeader w |}.

Definition rec_PutHeader (h : Go.Header) (w : ResponseRecorder) : ResponseRecorder :=
  {| Code := Code w; HeaderMap := h; Body := Body w; wroteHeader := wroteHeader w |}.

#[export] Instance recorder_writer : ResponseWriter ResponseRecorder := {
  GetHeader := HeaderMap;
  PutHeader := rec_PutHeader;
  Write := rec_Write;
  WriteHeader := rec_WriteHeader;
}.

(** A writer paired with the log of the requests the downstream handler
    was called with: the response goes to the writer, the log is
    untouched by it. *)
#[export] Instance logged_writer {W} `{ResponseWriter W}
  : ResponseWriter (W * list Request) := {
  GetHeader wl := GetHeader (fst wl);
  PutHeader h wl := (PutHeader h (fst wl), snd wl);
  Write data wl := (Write data (fst wl), snd wl);
  WriteHeader code wl := (WriteHeader code (fst wl), snd wl);
}.

(** [spy next] behaves as [next] and appends the request it received to
    the log. *)
Definition spy {W} (next : Handler W) : Handler (W * list Request) :=
  fun wl r => (next (fst wl) r, snd wl ++ [r]).

(** The verifier of the specification's test: it accepts ["valid-token"]
    and rejects every other token. *)
Definition testVerifier : FirebaseAuth :=
  {| Auth_VerifyIDToken _ idToken :=
       if String.eqb idToken "valid-token"
       then Ok {| UID := "user-123"; Issuer := "test"; Subject := "user-123"; Claims := [] |}
       else Err "invalid token" |}.

Definition requestWith (authorization : option string) : Request :=
  {| Method := "GET"; Path := "/protected";
     Header := match authorization with
               | Some v => Header_Add ∅ "Authorization" v
               | None => ∅
               end;
     Ctx := [] |}.

(** A downstream handler that greets the UID it finds in the context. *)
Definition greet : Handler ResponseRecorder :=
  fun w r =>
    match GetUIDFromContext (Ctx r) with
    | Ok uid => rec_Write ("Hello, " +:+ uid) w
    | Err _ => rec_Write "Failed to get UID from context" (rec_WriteHeader 500 w)
    end.

End firebase.

(** ** Package firebase: the user model (user.go) *)
Module firebase_user.

(** A custom claim is an [interface{}]: what [encoding/json] decodes to,
    or a value of some other Go type. *)
Inductive claim :=
| claimNil
| claimBool (b : bool)
| claimNumber (n : Z)
| claimString (s : string)
| claimArray (items : list claim)        (* []interface{} *)
| claimOther (typ : string).

(** [r == role] for an [interface{}] and a string: the dynamic type is
    string and the strings are equal. *)
Definition claimIsString (r : claim) (role : string) : bool :=
  match r with
  | claimString s => String.eqb s role
  | _ => false
  end.

(** [time.Time], as seconds since the Unix epoch. *)
Definition Time := Z.

(** [time.Unix(sec, 0)] *)
Definition time_Unix (sec : Z) : Time := sec.

(** The types of the Firebase SDK the file uses. *)
Module auth.

Record UserInfo := {
  DisplayName : string;
  Email : string;
  PhoneNumber : string;
  PhotoURL : string;
  ProviderID : string;
  UID : string;
}.

Record UserMetadata := {
  CreationTimestamp : Z;          (* int64, milliseconds *)
  LastLogInTimestamp : Z;
}.

(** [UserRecord] embeds a [*UserInfo] and points to its [*UserMetadata];
    either pointer can be nil ([None]). *)
Record UserRecord := {
  Info : option UserInfo;
  CustomClaims : option (gmap string claim);
  Disabled : bool;
  EmailVerified : bool;
  Metadata : option UserMetadata;
}.

(** [UserToUpdate]: the fields its builder methods were called for. *)
Record UserToUpdate := {
  setEmail : option string;
  setDisplayName : option string;
  setPhotoURL : option string;
  setEmailVerified : option bool;
  setDisabled : option bool;
  setPhoneNumber : option string;
  setPassword : option string;
  setCustomClaims : option (gmap string claim);
}.

Definition emptyUpdate : UserToUpdate :=
  {| setEmail := None; setDisplayName := None; setPhotoURL := None;
     setEmailVerified := None; setDisabled := None; setPhoneNumber := None;
     setPassword := None; setCustomClaims := None |}.

Definition withEmail (email : string) (u : UserToUpdate) : UserToUpdate :=
  {| setEmail := Some email; setDisplayName := setDisplayName u;
     setPhotoURL := setPhotoURL u; setEmailVerified := setEmailVerified u;
     setDisabled := setDisabled u; setPhoneNumber := setPhoneNumber u;
     setPassword := setPassword u; setCustomClaims := setCustomClaims u |}.

Definition withDisplayName (name : string) (u : UserToUpdate) : UserToUpdate :=
  {| setEmail := setEmail u; setDisplayName := Some name;
     setPhotoURL := setPhotoURL u; setEmailVerified := setEmailVerified u;
     setDisabled := setDisabled u; setPhoneNumber := setPhoneNumber u;
     setPassword := setPassword u; setCustomClaims := setCustomClaims u |}.

Definition withPhotoURL (url : string) (u : UserToUpdate) : UserToUpdate :=
  {| setEmail := setEmail u; setDisplayName := setDisplayName u;
     setPhotoURL := Some url; setEmailVerified := setEmailVerified u;
     setDisabled := setDisabled u; setPhoneNumber := setPhoneNumber u;
     setPassword := setPassword u; setCustomClaims := setCustomClaims u |}.

Definition withEmailVerified (verified : bool) (u : UserToUpdate) : UserToUpdate :=
  {| setEmail := setEmail u; setDisplayName := setDisplayName u;
     setPhotoURL := setPhotoURL u; setEmailVerified := Some verified;
     setDisabled := setDisabled u; setPhoneNumber := setPhoneNumber u;
     setPassword := setPassword u; setCustomClaims := setCustomClaims u |}.

Definition withDisabled (disabled : bool) (u : UserToUpdate) : UserToUpdate :=
  {| setEmail := setEmail u; setDisplayName := setDisplayName u;
     setPhotoURL := setPhotoURL u; setEmailVerified := setEmailVerified u;
     setDisabled := Some disabled; setPhoneNumber := setPhoneNumber u;
     setPassword := setPassword u; setCustomClaims := setCustomClaims u |}.

End auth.

Record BaseUser (T : Type) := {
  ID : string;
  Email : string;
  PhoneNumber : string;
  DisplayName : string;
  PhotoURL : string;
  CreatedAt : Time;
  UpdatedAt : Time;
  LastLoginAt : option Time;
  Disabled : bool;
  EmailVerified : bool;
  PhoneVerified : bool;
  Claims : option (gmap string claim);
  Data : T;
}.
Arguments ID {T} _.
Arguments Email {T} _.
Arguments PhoneNumber {T} _.
Arguments DisplayName {T} _.
Arguments PhotoURL {T} _.
Arguments CreatedAt {T} _.
Arguments UpdatedAt {T} _.
Arguments LastLoginAt {T} _.
Arguments Disabled {T} _.
Arguments EmailVerified {T} _.
Arguments PhoneVerified {T} _.
Arguments Claims {T} _.
Arguments Data {T} _.

(** The timestamps are [int64] milliseconds: [/] truncates towards zero.
    Reading a field through a nil pointer panics ([None]). *)
Definition FromFirebaseUser {T} (user : auth.UserRecord) (data : T)
  : option (BaseUser T) :=
  match auth.Metadata user with
  | None => None
  | Some metadata =>
      let lastLogin := auth.LastLogInTimestamp metadata in
      let lastLoginTime :=
        if 0 <? lastLogin then Some (time_Unix (lastLogin ÷ 1000)) else None in
      let createdAt := time_Unix (auth.CreationTimestamp metadata ÷ 1000) in
      match auth.Info user with
      | None => None
      | Some info =>
          let phoneVerified := negb (String.eqb (auth.PhoneNumber info) "") in
          Some {| ID := auth.UID info;
                  Email := auth.Email info;
                  DisplayName := auth.DisplayName info;
                  PhotoURL := auth.PhotoURL info;
                  CreatedAt := createdAt;
                  UpdatedAt := createdAt;
                  LastLoginAt := lastLoginTime;
                  Disabled := auth.Disabled user;
                  EmailVerified := auth.EmailVerified user;
                  Claims := auth.CustomClaims user;
                  Data := data;
                  PhoneNumber := auth.PhoneNumber info;
                  PhoneVerified := phoneVerified |}
      end
  end.

Definition ToFirebaseUpdate {T} (u : BaseUser T) : auth.UserToUpdate :=
  auth.withDisabled (Disabled u)
    (auth.withEmailVerified (EmailVerified u)
       (auth.withPhotoURL (PhotoURL u)
          (auth.withDisplayName (DisplayName u)
             (auth.withEmail (Email u) auth.emptyUpdate)))).

Definition GetClaim {T} (u : BaseUser T) (key : string) : option claim :=
  match Claims u with
  | None => None
  | Some claims => claims !! key
  end.

(** The loop over the roles array: it returns at the first element equal
    to [role]. *)
Fixpoint rangeRoles (rolesArr : list claim) (role : string) : bool :=
  match rolesArr with
  | [] => false
  | r :: rest => if claimIsString r role then true else rangeRoles rest role
  end.

Definition HasRole {T} (u : BaseUser T) (role : string) : bool :=
  match Claims u with
  | None => false
  | Some claims =>
      let found :=
        match claims !! "roles" with
        | Some (claimArray rolesArr) => rangeRoles rolesArr role
        | _ => false
        end in
      if found then true
      else match claims !! role with
           | Some (claimBool boolVal) => boolVal
           | _ => false
           end
  end.

(** A user record as the SDK returns it, for running the conversions. *)
Definition someUser : auth.UserRecord :=
  {| auth.Info := Some {| auth.DisplayName := "Ada"; auth.Email := "ada@example.com";
                          auth.PhoneNumber := ""; auth.PhotoURL := "";
                          auth.ProviderID := "firebase"; auth.UID := "user-123" |};
     auth.CustomClaims := Some {["roles" := claimArray [claimString "editor"];
                                 "admin" := claimBool true]};
     auth.Disabled := false;
     auth.EmailVerified := true;
     auth.Metadata := Some {| auth.CreationTimestamp := 1700000000999;
                              auth.LastLogInTimestamp := 0 |} |}.

End firebase_user.

(** ** Package cloudflare (config, D1, KV, R2 and the Storage aggregate) *)
Module cloudflare.

Record CloudflareConfig := {
  APIToken : string;
  AccountID : string;
  BaseURL : string;
  Timeout : Z;                  (* a [time.Duration], in nanoseconds *)
}.

Definition defaultBaseURL : string := "https://api.cloudflare.com/client/v4".
Definition Second : Z := 1000000000.

(** A [*CloudflareConfig]: an address of the heap of configurations.  The
    clients keep the pointer they were given, so several clients can share
    one record; an address outside the heap stands for [nil]. *)
Definition ptr := positive.

(** An outgoing [*http.Request]. *)
Record Request := {
  Method : string;
  URL : string;
  Header : Go.Header;
  Body : option string;
}.

(** A response body is a stream: the bytes it delivers and the error its
    reading ends with, if any. *)
Record Stream := {
  data : string;
  readErr : option error;
}.

Record Response := {
  StatusCode : Z;
  RespHeader : Go.Header;
  RespBody : Stream;
}.

(** [http.Client] as built by [createHTTPClient]. *)
Record HTTPClient := { ClientTimeout : Z }.

(** JSON documents, as far as the library fixes their shape. *)
Inductive JSON :=
| JNull
| JBool (b : bool)
| JNumber (literal : string)
| JString (s : string)
| JArray (items : list JSON)
| JObject (fields : list (string * JSON)).

(** *** D1 types *)

Inductive float32 := Float32 (bits : Z).

Record D1Meta := {
  ChangedDB : bool;
  Changes : Z;
  Duration : float32;
  LastRowID : Z;
  RowsRead : Z;
  RowsWritten : Z;
  ServedByPrimary : bool;
  ServedByRegion : string;
  SizeAfter : Z;
  SQLDurationMS : float32;
}.

Record D1ResponseItem := {
  Meta : D1Meta;
  Results : list (list (string * JSON));
  ItemSuccess : bool;
}.

Record D1Error := {
  ErrCode : Z;
  Message : string;
  DocumentationURL : string;
  SourcePointer : string;
}.

Record D1Response := {
  Errors : list D1Error;
  Messages : list D1Error;
  Result : list D1ResponseItem;
  Success : bool;
}.

(** The anonymous request struct of [ExecuteQuery]; [Params] is an
    [interface{}], [None] while it is the nil interface. *)
Record D1RequestBody (any : Type) := {
  SQL : string;
  Params : option (list any);
}.
Arguments SQL {any} _.
Arguments Params {any} _.

(** *** KV and R2 types *)

Record KVKey := {
  Name : string;
  Expiration : Z;
}.

Record R2Object := {
  Key : string;
  Size : Z;
  ETag : string;
  ContentType : string;
  LastModified : string;
  Metadata : gmap string string;
}.

Record D1Client := { d1_config : ptr; d1_client : HTTPClient }.
Record R2Client := { r2_config : ptr; r2_client : HTTPClient }.
Record KVClient := { kv_config : ptr; kv_client : HTTPClient }.
Record Storage := { D1 : D1Client; R2 : R2Client; KV : KVClient }.

(** *** What the library runs on

    The collaborators the library calls and does not implement: the URL
    parser behind [http.NewRequestWithContext], [encoding/json], the order
    in which [range] visits a map, and the transport behind
    [http.Client.Do], which talks to a remote service with a state of its
    own. *)
Record Platform (any Remote : Type) := {
  (** the error [http.NewRequestWithContext] reports for a URL, if any *)
  parseURL : string -> option error;
  (** [json.Marshal] of a dynamically typed value, as a document *)
  toJSON : any -> result JSON;
  (** the bytes of a document *)
  encodeJSON : JSON -> string;
  (** [json.Unmarshal(data, target)]: the new value of the target *)
  jsonUnmarshal : string -> any -> result any;
  (** [json.NewDecoder(body).Decode] into the response structs *)
  decodeD1Response : Stream -> result D1Response;
  decodeSuccess : Stream -> result bool;
  decodeKeys : Stream -> result (bool * list KVKey);
  decodeObjects : Stream -> result (bool * list R2Object);
  decodeObject : Stream -> result (bool * R2Object);
  (** the order in which [range] visits the entries of a map *)
  rangeOrder : forall V, gmap string V -> list (string * V);
  rangeOrder_perm : forall V (m : gmap string V), rangeOrder V m ≡ₚ map_to_list m;
  (** [http.Client.Do]: the timeout, the request, the remote state *)
  roundTrip : Z -> Request -> Remote -> result Response * Remote;
}.
Arguments parseURL {any Remote} _ _.
Arguments toJSON {any Remote} _ _.
Arguments encodeJSON {any Remote} _ _.
Arguments jsonUnmarshal {any Remote} _ _ _.
Arguments decodeD1Response {any Remote} _ _.
Arguments decodeSuccess {any Remote} _ _.
Arguments decodeKeys {any Remote} _ _.
Arguments decodeObjects {any Remote} _ _.
Arguments decodeObject {any Remote} _ _.
Arguments rangeOrder {any Remote} _ {V} _.
Arguments rangeOrder_perm {any Remote} _ {V} _.
Arguments roundTrip {any Remote} _ _ _ _.

(** The state a call of the library can read or change: the heap of
    configurations, the process environment, the remote service, and the
    log of the requests handed to the transport. *)
Record World (Remote : Type) := {
  heap : gmap ptr CloudflareConfig;
  environ : gmap string string;
  remote : Remote;
  sent : list Request;
}.
Arguments heap {Remote} _.
Arguments environ {Remote} _.
Arguments remote {Remote} _.
Arguments sent {Remote} _.

(** A computation of the library over a world [W]: it panics ([None]: a
    nil pointer is dereferenced, a slice is indexed out of range) or
    returns a value and the world it leaves. *)
Definition M (W A : Type) : Type := W -> option (A * W).

Definition ret {W A} (x : A) : M W A := fun w => Some (x, w).

Definition bind {W A B} (c : M W A) (k : A -> M W B) : M W B :=
  fun w => match c w with
           | Some (x, w') => k x w'
           | None => None
           end.

Definition panic {W A} : M W A := fun _ => None.

Notation "x <- c ;; k" := (bind c (fun x => k))
  (at level 100, c at next level, right associativity).

Section Library.
Context {any Remote : Type} (P : Platform any Remote).

#[local] Abbreviation World := (World Remote).
#[local] Abbreviation M := (M World).

(** [*p], [p.BaseURL = url], [&CloudflareConfig{...}], [os.Getenv] and
    [client.Do]. *)
Definition load (p : ptr) : M CloudflareConfig :=
  fun w => match heap w !! p with
           | Some cfg => Some (cfg, w)
           | None => None
           end.

Definition setBaseURL (p : ptr) (url : string) : M unit :=
  fun w => match heap w !! p with
           | Some cfg =>
               let cfg' := {| APIToken := APIToken cfg; AccountID := AccountID cfg;
                              BaseURL := url; Timeout := Timeout cfg |} in
               Some (tt, {| heap := <[p := cfg']> (heap w); environ := environ w;
                            remote := remote w; sent := sent w |})
           | None => None
           end.

Definition new (cfg : CloudflareConfig) : M ptr :=
  fun w => let p := fresh (dom (heap w)) in
           Some (p, {| heap := <[p := cfg]> (heap w); environ := environ w;
                       remote := remote w; sent := sent w |}).

Definition Getenv (key : string) : M string :=
  fun w => Some (default "" (environ w !! key), w).

Definition Do (client : HTTPClient) (req : Request) : M (result Response) :=
  fun w => let '(resp, remote') := roundTrip P (ClientTimeout client) req (remote w) in
           Some (resp, {| heap := heap w; environ := environ w;
                          remote := remote'; sent := sent w ++ [req] |}).

(** [http.NewRequestWithContext(ctx, method, url, body)] *)
Definition NewRequest (method url : string) (body : option string) : result Request :=
  match parseURL P url with
  | Some err => Err err
  | None => Ok {| Method := method; URL := url; Header := ∅; Body := body |}
  end.

Definition withHeader (req : Request) (h : Go.Header) : Request :=
  {| Method := Method req; URL := URL req; Header := h; Body := Body req |}.

Definition addHeader (req : Request) (key value : string) : Request :=
  withHeader req (Header_Add (Header req) key value).

Definition setHeader (req : Request) (key value : string) : Request :=
  withHeader req (Header_Set (Header req) key value).

(** **** config.go *)

Definition NewConfig (apiToken accountID : string) : M ptr :=
  new {| APIToken := apiToken; AccountID := accountID;
         BaseURL := defaultBaseURL; Timeout := 30 * Second |}.

Definition createHTTPClient (config : ptr) : M HTTPClient :=
  cfg <- load config;;
  ret {| ClientTimeout := Timeout cfg |}.

(** **** d1.go *)

Definition NewD1Client (config : ptr) : M D1Client :=
  cfg <- load config;;
  _ <- (if String.eqb (BaseURL cfg) "" then setBaseURL config defaultBaseURL else ret tt);;
  client <- createHTTPClient config;;
  ret {| d1_config := config; d1_client := client |}.

(** [json.Marshal] of the request struct: field [sql], then field
    [params] unless it is the nil interface ([omitempty]). *)
Fixpoint marshalAll (l : list any) : result (list JSON) :=
  match l with
  | [] => Ok []
  | x :: l' =>
      match toJSON P x with
      | Err e => Err e
      | Ok j => match marshalAll l' with
                | Err e => Err e
                | Ok js => Ok (j :: js)
                end
      end
  end.

Definition requestDocument (body : D1RequestBody any) : result JSON :=
  match Params body with
  | None => Ok (JObject [("sql", JString (SQL body))])
  | Some params =>
      match marshalAll params with
      | Err e => Err e
      | Ok js => Ok (JObject [("sql", JString (SQL body)); ("params", JArray js)])
      end
  end.

Definition ExecuteQuery (d : D1Client) (databaseID query : string)
    (params : list any) : M (result D1ResponseItem) :=
  cfg <- load (d1_config d);;
  let url := BaseURL cfg +:+ "/accounts/" +:+ AccountID cfg +:+
             "/d1/database/" +:+ databaseID +:+ "/query" in
  let requestBody :=
    {| SQL := query;
       Params := if (0 <? length params)%nat then Some params else None |} in
  match requestDocument requestBody with
  | Err err => ret (Err ("error marshaling request: " +:+ err))
  | Ok document =>
  match NewRequest "POST" url (Some (encodeJSON P document)) with
  | Err err => ret (Err ("error creating request: " +:+ err))
  | Ok req =>
  let req := setHeader req "Content-Type" "application/json" in
  let req := setHeader req "Authorization" ("Bearer " +:+ APIToken cfg) in
  resp <- Do (d1_client d) req;;
  match resp with
  | Err err => ret (Err ("error making request: " +:+ err))
  | Ok resp =>
  if negb (StatusCode resp =? StatusOK) then
    ret (Err ("unexpected status code: " +:+ itoa (StatusCode resp) +:+
              ", body: " +:+ data (RespBody resp)))
  else
  match decodeD1Response P (RespBody resp) with
  | Err err => ret (Err ("error decoding response: " +:+ err))
  | Ok response =>
  if negb (Success response) then
    let errMsg := "request was not successful" in
    let errMsg := match Errors response with
                  | e :: _ => errMsg +:+ ": " +:+ Message e
                  | [] => errMsg
                  end in
    ret (Err (Sprintf0 errMsg))
  else
  match Result response with
  | [] => ret (Err "empty result set")
  | item :: _ => ret (Ok item)
  end end end end end.

(** **** kv.go *)

Definition NewKVClient (config : ptr) : M KVClient :=
  cfg <- load config;;
  _ <- (if String.eqb (BaseURL cfg) "" then setBaseURL config defaultBaseURL else ret tt);;
  client <- createHTTPClient config;;
  ret {| kv_config := config; kv_client := client |}.

Definition ListKeys (k : KVClient) (namespaceID prefix : string)
  : M (result (list KVKey)) :=
  cfg <- load (kv_config k);;
  let urlPath := BaseURL cfg +:+ "/accounts/" +:+ AccountID cfg +:+
                 "/storage/kv/namespaces/" +:+ namespaceID +:+ "/keys" in
  let urlPath := if String.eqb prefix "" then urlPath
                 else urlPath +:+ "?prefix=" +:+ QueryEscape prefix in
  match NewRequest "GET" urlPath None with
  | Err err => ret (Err ("error creating request: " +:+ err))
  | Ok req =>
  let req := addHeader req "Authorization" ("Bearer " +:+ APIToken cfg) in
  resp <- Do (kv_client k) req;;
  match resp with
  | Err err => ret (Err ("error making request: " +:+ err))
  | Ok resp =>
  if negb (StatusCode resp =? StatusOK) then
    ret (Err ("unexpected status code: " +:+ itoa (StatusCode resp)))
  else
  match decodeKeys P (RespBody resp) with
  | Err err => ret (Err ("error decoding response: " +:+ err))
  | Ok (success, result) =>
  if negb success then ret (Err "request was not successful")
  else ret (Ok result)
  end end end.

Definition WriteValue (k : KVClient) (namespaceID key value : string)
    (expiration : option Z) : M (result unit) :=
  cfg <- load (kv_config k);;
  let urlPath := BaseURL cfg +:+ "/accounts/" +:+ AccountID cfg +:+
                 "/storage/kv/namespaces/" +:+ namespaceID +:+
                 "/values/" +:+ PathEscape key in
  let urlPath := match expiration with
                 | Some ttl => urlPath +:+ "?expiration_ttl=" +:+ itoa ttl
                 | None => urlPath
                 end in
  match NewRequest "PUT" urlPath (Some value) with
  | Err err => ret (Err ("error creating request: " +:+ err))
  | Ok req =>
  let req := addHeader req "Authorization" ("Bearer " +:+ APIToken cfg) in
  let req := addHeader req "Content-Type" "application/octet-stream" in
  resp <- Do (kv_client k) req;;
  match resp with
  | Err err => ret (Err ("error making request: " +:+ err))
  | Ok resp =>
  if negb (StatusCode resp =? StatusOK) then
    ret (Err ("unexpected status code: " +:+ itoa (StatusCode resp)))
  else
  match decodeSuccess P (RespBody resp) with
  | Err err => ret (Err ("error decoding response: " +:+ err))
  | Ok success =>
  if negb success then ret (Err "request was not successful")
  else ret (Ok tt)
  end end end.

Definition ReadValue (k : KVClient) (namespaceID key : string)
  : M (result string) :=
  cfg <- load (kv_config k);;
  let urlPath := BaseURL cfg +:+ "/accounts/" +:+ AccountID cfg +:+
                 "/storage/kv/namespaces/" +:+ namespaceID +:+
                 "/values/" +:+ PathEscape key in
  match NewRequest "GET" urlPath None with
  | Err err => ret (Err ("error creating request: " +:+ err))
  | Ok req =>
  let req := addHeader req "Authorization" ("Bearer " +:+ APIToken cfg) in
  resp <- Do (kv_client k) req;;
  match resp with
  | Err err => ret (Err ("error making request: " +:+ err))
  | Ok resp =>
  if StatusCode resp =? StatusNotFound then
    ret (Err ("key not found: " +:+ key))
  else if negb (StatusCode resp =? StatusOK) then
    ret (Err ("unexpected status code: " +:+ itoa (StatusCode resp)))
  else
  match readErr (RespBody resp) with
  | Some err => ret (Err ("error reading response body: " +:+ err))
  | None => ret (Ok (data (RespBody resp)))
  end end end.

Definition DeleteValue (k : KVClient) (namespaceID key : string)
  : M (result unit) :=
  cfg <- load (kv_config k);;
  let urlPath := BaseURL cfg +:+ "/accounts/" +:+ AccountID cfg +:+
                 "/storage/kv/namespaces/" +:+ namespaceID +:+
                 "/values/" +:+ PathEscape key in
  match NewRequest "DELETE" urlPath None with
  | Err err => ret (Err ("error creating request: " +:+ err))
  | Ok req =>
  let req := addHeader req "Authorization" ("Bearer " +:+ APIToken cfg) in
  resp <- Do (kv_client k) req;;
  match resp with
  | Err err => ret (Err ("error making request: " +:+ err))
  | Ok resp =>
  if negb (StatusCode resp =? StatusOK) then
    ret (Err ("unexpected status code: " +:+ itoa (StatusCode resp)))
  else
  match decodeSuccess P (RespBody resp) with
  | Err err => ret (Err ("error decoding response: " +:+ err))
  | Ok success =>
  if negb success then ret (Err "request was not successful")
  else ret (Ok tt)
  end end end.

Definition WriteJSON (k : KVClient) (namespaceID key : string) (value : any)
    (expiration : option Z) : M (result unit) :=
  match toJSON P value with
  | Err err => ret (Err ("error encoding value to JSON: " +:+ err))
  | Ok document => WriteValue k namespaceID key (encodeJSON P document) expiration
  end.

(** [ReadJSON] fills [target]; the value left in it is returned here. *)
Definition ReadJSON (k : KVClient) (namespaceID key : string) (target : any)
  : M (result any) :=
  r <- ReadValue k namespaceID key;;
  match r with
  | Err err => ret (Err err)
  | Ok bytes =>
      match jsonUnmarshal P bytes target with
      | Err err => ret (Err ("error decoding JSON value: " +:+ err))
      | Ok target' => ret (Ok target')
      end
  end.

(** **** r2.go *)

Definition NewR2Client (config : ptr) : M R2Client :=
  cfg <- load config;;
  _ <- (if String.eqb (BaseURL cfg) "" then setBaseURL config defaultBaseURL else ret tt);;
  client <- createHTTPClient config;;
  ret {| r2_config := config; r2_client := client |}.

Definition ListObjects (r : R2Client) (bucketName prefix : string)
  : M (result (list R2Object)) :=
  cfg <- load (r2_config r);;
  let url := BaseURL cfg +:+ "/accounts/" +:+ AccountID cfg +:+
             "/r2/buckets/" +:+ bucketName +:+ "/objects" in
  let url := if String.eqb prefix "" then url else url +:+ "?prefix=" +:+ prefix in
  match NewRequest "GET" url None with
  | Err err => ret (Err ("error creating request: " +:+ err))
  | Ok req =>
  let req := addHeader req "Authorization" ("Bearer " +:+ APIToken cfg) in
  resp <- Do (r2_client r) req;;
  match resp with
  | Err err => ret (Err ("error making request: " +:+ err))
  | Ok resp =>
  if negb (StatusCode resp =? StatusOK) then
    ret (Err ("unexpected status code: " +:+ itoa (StatusCode resp)))
  else
  match decodeObjects P (RespBody resp) with
  | Err err => ret (Err ("error decoding response: " +:+ err))
  | Ok (success, result) =>
  if negb success then ret (Err "request was not successful")
  else ret (Ok result)
  end end end.

Definition metadataPrefix : string := "X-Metadata-".

(** The loop [for k, v := range metadata { req.Header.Add("X-Metadata-"+k, v) }]. *)
Definition addMetadata (req : Request) (entries : list (string * string)) : Request :=
  foldl (fun req kv => addHeader req (metadataPrefix +:+ kv.1) kv.2) req entries.

Definition UploadObject (r : R2Client) (bucketName key data contentType : string)
    (metadata : option (gmap string string)) : M (result R2Object) :=
  cfg <- load (r2_config r);;
  let url := BaseURL cfg +:+ "/accounts/" +:+ AccountID cfg +:+
             "/r2/buckets/" +:+ bucketName +:+ "/objects/" +:+ key in
  match NewRequest "PUT" url (Some data) with
  | Err err => ret (Err ("error creating request: " +:+ err))
  | Ok req =>
  let req := addHeader req "Authorization" ("Bearer " +:+ APIToken cfg) in
  let req := if String.eqb contentType "" then req
             else addHeader req "Content-Type" contentType in
  let req := match metadata with
             | Some m => addMetadata req (rangeOrder P m)
             | None => req
             end in
  resp <- Do (r2_client r) req;;
  match resp with
  | Err err => ret (Err ("error making request: " +:+ err))
  | Ok resp =>
  if negb (StatusCode resp =? StatusOK) then
    ret (Err ("unexpected status code: " +:+ itoa (StatusCode resp)))
  else
  match decodeObject P (RespBody resp) with
  | Err err => ret (Err ("error decoding response: " +:+ err))
  | Ok (success, result) =>
  if negb success then ret (Err "request was not successful")
  else ret (Ok result)
  end end end.

(** The loop over [resp.Header] of [GetObject], one entry at a time;
    [v[0]] on an empty value list is an index out of range ([None]). *)
Definition metadataStep (acc : option (gmap string string))
    (kv : string * list string) : option (gmap string string) :=
  match acc with
  | None => None
  | Some metadata =>
      if HasPrefix kv.1 metadataPrefix then
        match kv.2 with
        | v0 :: _ => Some (<[TrimPrefix kv.1 metadataPrefix := v0]> metadata)
        | [] => None
        end
      else Some metadata
  end.

Definition extractMetadata (entries : list (string * list string))
  : option (gmap string string) :=
  foldl metadataStep (Some ∅) entries.

Definition GetObject (r : R2Client) (bucketName key : string)
  : M (result (Stream * gmap string string)) :=
  cfg <- load (r2_config r);;
  let url := BaseURL cfg +:+ "/accounts/" +:+ AccountID cfg +:+
             "/r2/buckets/" +:+ bucketName +:+ "/objects/" +:+ key in
  match NewRequest "GET" url None with
  | Err err => ret (Err ("error creating request: " +:+ err))
  | Ok req =>
  let req := addHeader req "Authorization" ("Bearer " +:+ APIToken cfg) in
  resp <- Do (r2_client r) req;;
  match resp with
  | Err err => ret (Err ("error making request: " +:+ err))
  | Ok resp =>
  if negb (StatusCode resp =? StatusOK) then
    ret (Err ("unexpected status code: " +:+ itoa (StatusCode resp)))
  else
  match extractMetadata (rangeOrder P (RespHeader resp)) with
  | None => panic
  | Some metadata => ret (Ok (RespBody resp, metadata))
  end end end.

Definition DeleteObject (r : R2Client) (bucketName key : string)
  : M (result unit) :=
  cfg <- load (r2_config r);;
  let url := BaseURL cfg +:+ "/accounts/" +:+ AccountID cfg +:+
             "/r2/buckets/" +:+ bucketName +:+ "/objects/" +:+ key in
  match NewRequest "DELETE" url None with
  | Err err => ret (Err ("error creating request: " +:+ err))
  | Ok req =>
  let req := addHeader req "Authorization" ("Bearer " +:+ APIToken cfg) in
  resp <- Do (r2_client r) req;;
  match resp with
  | Err err => ret (Err ("error making request: " +:+ err))
  | Ok resp =>
  if negb (StatusCode resp =? StatusOK) then
    ret (Err ("unexpected status code: " +:+ itoa (StatusCode resp)))
  else ret (Ok tt)
  end end.

(** **** storage.go *)

Definition NewStorage (config : ptr) : M Storage :=
  d1 <- NewD1Client config;;
  r2 <- NewR2Client config;;
  kv <- NewKVClient config;;
  ret {| D1 := d1; R2 := r2; KV := kv |}.

Definition NewStorageFromEnv : M Storage :=
  apiToken <- Getenv "CLOUDFLARE_API_TOKEN";;
  accountID <- Getenv "CLOUDFLARE_ACCOUNT_ID";;
  config <- new {| APIToken := apiToken; AccountID := accountID;
                   BaseURL := defaultBaseURL; Timeout := 0 |};;
  NewStorage config.

(** **** The library as a set of calls

    Every exported function of the package, as a call with its arguments,
    and what a call returns. *)

Inductive Call :=
| CallNewConfig (apiToken accountID : string)
| CallNewD1Client (config : ptr)
| CallNewR2Client (config : ptr)
| CallNewKVClient (config : ptr)
| CallNewStorage (config : ptr)
| CallNewStorageFromEnv
| CallExecuteQuery (d : D1Client) (databaseID query : string) (params : list any)
| CallListKeys (k : KVClient) (namespaceID prefix : string)
| CallWriteValue (k : KVClient) (namespaceID key value : string) (expiration : option Z)
| CallReadValue (k : KVClient) (namespaceID key : string)
| CallDeleteValue (k : KVClient) (namespaceID key : string)
| CallWriteJSON (k : KVClient) (namespaceID key : string) (value : any) (expiration : option Z)
| CallReadJSON (k : KVClient) (namespaceID key : string) (target : any)
| CallListObjects (r : R2Client) (bucketName prefix : string)
| CallUploadObject (r : R2Client) (bucketName key data contentType : string)
    (metadata : option (gmap string string))
| CallGetObject (r : R2Client) (bucketName key : string)
| CallDeleteObject (r : R2Client) (bucketName key : string).

Inductive Reply :=
| ReplyConfig (config : ptr)
| ReplyD1Client (d : D1Client)
| ReplyR2Client (r : R2Client)
| ReplyKVClient (k : KVClient)
| ReplyStorage (s : Storage)
| ReplyQuery (res : result D1ResponseItem)
| ReplyKeys (res : result (list KVKey))
| ReplyDone (res : result unit)
| ReplyBytes (res : result string)
| ReplyValue (res : result any)
| ReplyObjects (res : result (list R2Object))
| ReplyObject (res : result R2Object)
| ReplyStream (res : result (Stream * gmap string string)).

Definition perform (c : Call) : M Reply :=
  match c with
  | CallNewConfig apiToken accountID =>
      x <- NewConfig apiToken accountID;; ret (ReplyConfig x)
  | CallNewD1Client config => x <- NewD1Client config;; ret (ReplyD1Client x)
  | CallNewR2Client config => x <- NewR2Client config;; ret (ReplyR2Client x)
  | CallNewKVClient config => x <- NewKVClient config;; ret (ReplyKVClient x)
  | CallNewStorage config => x <- NewStorage config;; ret (ReplyStorage x)
  | CallNewStorageFromEnv => x <- NewStorageFromEnv;; ret (ReplyStorage x)
  | CallExecuteQuery d databaseID query params =>
      x <- ExecuteQuery d databaseID query params;; ret (ReplyQuery x)
  | CallListKeys k namespaceID prefix =>
      x <- ListKeys k namespaceID prefix;; ret (ReplyKeys x)
  | CallWriteValue k namespaceID key value expiration =>
      x <- WriteValue k namespaceID key value expiration;; ret (ReplyDone x)
  | CallReadValue k namespaceID key =>
      x <- ReadValue k namespaceID key;; ret (ReplyBytes x)
  | CallDeleteValue k namespaceID key =>
      x <- DeleteValue k namespaceID key;; ret (ReplyDone x)
  | CallWriteJSON k namespaceID key value expiration =>
      x <- WriteJSON k namespaceID key value expiration;; ret (ReplyDone x)
  | CallReadJSON k namespaceID key target =>
      x <- ReadJSON k namespaceID key target;; ret (ReplyValue x)
  | CallListObjects r bucketName prefix =>
      x <- ListObjects r bucketName prefix;; ret (ReplyObjects x)
  | CallUploadObject r bucketName key data contentType metadata =>
      x <- UploadObject r bucketName key data contentType metadata;; ret (ReplyObject x)
  | CallGetObject r bucketName key =>
      x <- GetObject r bucketName key;; ret (ReplyStream x)
  | CallDeleteObject r bucketName key =>
      x <- DeleteObject r bucketName key;; ret (ReplyDone x)
  end.

(** The configuration a constructor call is given. *)
Definition constructs (c : Call) (p : ptr) : bool :=
  match c with
  | CallNewD1Client config | CallNewR2Client config
  | CallNewKVClient config | CallNewStorage config => Pos.eqb config p
  | _ => false
  end.


(** The same world over another heap of configurations. *)
Definition withHeap (h : gmap ptr CloudflareConfig) (w : World) : World :=
  {| heap := h; environ := environ w; remote := remote w; sent := sent w |}.


(** The URL a KV call addresses, with [enc] applied to the namespace
    segment; the key is one escaped path segment, the list prefix one
    escaped query component. *)
Definition kvURLWith (enc : string -> string) (cfg : CloudflareConfig) (c : Call)
  : option string :=
  let base namespaceID := BaseURL cfg +:+ "/accounts/" +:+ AccountID cfg +:+
                          "/storage/kv/namespaces/" +:+ enc namespaceID in
  match c with
  | CallListKeys _ namespaceID prefix =>
      Some (base namespaceID +:+ "/keys" +:+
            (if String.eqb prefix "" then "" else "?prefix=" +:+ QueryEscape prefix))
  | CallWriteValue _ namespaceID key _ expiration
  | CallWriteJSON _ namespaceID key _ expiration =>
      Some (base namespaceID +:+ "/values/" +:+ PathEscape key +:+
            match expiration with
            | Some ttl => "?expiration_ttl=" +:+ itoa ttl
            | None => ""
            end)
  | CallReadValue _ namespaceID key
  | CallDeleteValue _ namespaceID key
  | CallReadJSON _ namespaceID key _ =>
      Some (base namespaceID +:+ "/values/" +:+ PathEscape key)
  | _ => None
  end.

(** What the code does: the namespace is the text the caller passed. *)
Definition kvURL := kvURLWith (fun namespaceID => namespaceID).


Definition kvClientOf (c : Call) : option KVClient :=
  match c with
  | CallListKeys k _ _ | CallWriteValue k _ _ _ _ | CallReadValue k _ _
  | CallDeleteValue k _ _ | CallWriteJSON k _ _ _ _ | CallReadJSON k _ _ _ => Some k
  | _ => None
  end.


(** What the transport answered to the one request a call sent. *)
Definition answered (timeout : Z) (w w' : World) (resp : Response) : Prop :=
  exists req remote',
    sent w' = sent w ++ [req] /\
    roundTrip P timeout req (remote w) = (Ok resp, remote').




(** A configuration after the defaulting step of the constructors. *)
Definition defaulted (cfg : CloudflareConfig) : CloudflareConfig :=
  if String.eqb (BaseURL cfg) "" then
    {| APIToken := APIToken cfg; AccountID := AccountID cfg;
       BaseURL := defaultBaseURL; Timeout := Timeout cfg |}
  else cfg.

End Library.

(** **** What a call works with and what it returns *)

Section Observations.
Context {any : Type}.

(** The configuration and the HTTP client a call of a client works with. *)
Definition clientOf (c : Call (any := any)) : option (ptr * HTTPClient) :=
  match c with
  | CallExecuteQuery d _ _ _ => Some (d1_config d, d1_client d)
  | CallListKeys k _ _ | CallWriteValue k _ _ _ _ | CallReadValue k _ _
  | CallDeleteValue k _ _ | CallWriteJSON k _ _ _ _ | CallReadJSON k _ _ _ =>
      Some (kv_config k, kv_client k)
  | CallListObjects r _ _ | CallUploadObject r _ _ _ _ _ | CallGetObject r _ _
  | CallDeleteObject r _ _ => Some (r2_config r, r2_client r)
  | _ => None
  end.

(** The HTTP method of the request a call builds. *)
Definition methodOf (c : Call (any := any)) : string :=
  match c with
  | CallExecuteQuery _ _ _ _ => "POST"
  | CallWriteValue _ _ _ _ _ | CallWriteJSON _ _ _ _ _
  | CallUploadObject _ _ _ _ _ _ => "PUT"
  | CallDeleteValue _ _ _ | CallDeleteObject _ _ _ => "DELETE"
  | _ => "GET"
  end.

(** The error a reply carries, if it is one. *)
Definition replyError (reply : Reply (any := any)) : option error :=
  match reply with
  | ReplyQuery (Err e) | ReplyKeys (Err e) | ReplyDone (Err e) | ReplyBytes (Err e)
  | ReplyValue (Err e) | ReplyObjects (Err e) | ReplyObject (Err e)
  | ReplyStream (Err e) => Some e
  | _ => None
  end.

End Observations.

(** The URL of a value of a KV namespace. *)
Definition valueURL (cfg : CloudflareConfig) (namespaceID key : string) : string :=
  BaseURL cfg +:+ "/accounts/" +:+ AccountID cfg +:+
  "/storage/kv/namespaces/" +:+ namespaceID +:+ "/values/" +:+ PathEscape key.

(** [cfg.Timeout = timeout] *)
Definition withTimeout (timeout : Z) (cfg : CloudflareConfig) : CloudflareConfig :=
  {| APIToken := APIToken cfg; AccountID := AccountID cfg;
     BaseURL := BaseURL cfg; Timeout := timeout |}.

(** The timeouts of the three HTTP clients of a [Storage], and the
    configurations its clients point to. *)
Definition timeouts (s : Storage) : list Z :=
  [ClientTimeout (d1_client (D1 s)); ClientTimeout (r2_client (R2 s));
   ClientTimeout (kv_client (KV s))].

Definition configs (s : Storage) : list ptr :=
  [d1_config (D1 s); r2_config (R2 s); kv_config (KV s)].


(** The key under which [GetObject] returns the entry uploaded under [k]. *)
Definition metaKey (k : string) : string :=
  TrimPrefix (CanonicalMIMEHeaderKey (metadataPrefix +:+ k)) metadataPrefix.

(** How a caller tells the not-found error of [ReadValue] from the others:
    errors carry no type, the message does. *)
Definition isNotFound (err : error) : bool := HasPrefix err "key not found: ".

(** *** A remote object store that keeps what it is sent

    The R2 endpoint as the library expects it to behave: a PUT stores the
    body and the metadata headers of the request under its URL, a GET
    returns them.  The transport in front of it refuses a request with a
    header name that is not a token, as [net/http] does. *)

Record StoredObject := {
  objData : string;
  objHeader : Go.Header;
}.

Definition validFieldName (k : string) : bool :=
  negb (String.eqb k "") && allBytes validHeaderFieldByte k.

Definition plainBody (s : string) : Stream := {| data := s; readErr := None |}.

Definition echoRoundTrip (timeout : Z) (req : Request)
    (store : gmap string StoredObject) : result Response * gmap string StoredObject :=
  if negb (forallb (fun kv => validFieldName kv.1) (map_to_list (Header req))) then
    (Err "net/http: invalid header field name", store)
  else if String.eqb (Method req) "PUT" then
    let object :=
      {| objData := default "" (Body req);
         objHeader := filter (fun kv => HasPrefix kv.1 metadataPrefix = true) (Header req) |} in
    (Ok {| StatusCode := 200; RespHeader := ∅; RespBody := plainBody "stored" |},
     <[URL req := object]> store)
  else if String.eqb (Method req) "GET" then
    match store !! URL req with
    | Some object =>
        (Ok {| StatusCode := 200;
               RespHeader := <["Content-Length" :=
                                [itoa (Z.of_nat (String.length (objData object)))]]>
                               (objHeader object);
               RespBody := plainBody (objData object) |}, store)
    | None =>
        (Ok {| StatusCode := 404; RespHeader := ∅; RespBody := plainBody "" |}, store)
    end
  else if String.eqb (Method req) "DELETE" then
    match store !! URL req with
    | Some _ =>
        (Ok {| StatusCode := 200; RespHeader := ∅; RespBody := plainBody "" |},
         delete (URL req) store)
    | None =>
        (Ok {| StatusCode := 404; RespHeader := ∅; RespBody := plainBody "" |}, store)
    end
  else (Ok {| StatusCode := 405; RespHeader := ∅; RespBody := plainBody "" |}, store).

(** *** Stand-ins for the collaborators, for running the library on
    concrete inputs *)

(** A URL with a control byte does not parse. *)
Definition stubParseURL (url : string) : option error :=
  if allBytes (fun c => (31 <? N_of_ascii c)%N && negb (N_of_ascii c =? 127)%N) url
  then None else Some "net/url: invalid control character in URL".

(** A transport that answers every request with the same response. *)
Definition cannedTransport (resp : result Response)
  : Z -> Request -> unit -> result Response * unit :=
  fun _ _ u => (resp, u).

(** A rendering of documents that is enough to tell them apart (strings
    are written without quotes or escapes). *)
Fixpoint renderJSON (j : JSON) : string :=
  match j with
  | JNull => "null"
  | JBool true => "true"
  | JBool false => "false"
  | JNumber literal => literal
  | JString s => s
  | JArray items =>
      "[" +:+ fold_right (fun item acc => renderJSON item +:+ "," +:+ acc) "]" items
  | JObject fields =>
      "{" +:+ fold_right (fun kv acc => kv.1 +:+ ":" +:+ renderJSON kv.2 +:+ "," +:+ acc)
                "}" fields
  end.

(** The stand-in platform: parameters are strings, every decoder ignores
    the body and returns what it is told to. *)
Definition stubPlatform {Remote : Type}
    (transport : Z -> Request -> Remote -> result Response * Remote)
    (envelope : result D1Response) (success : result bool) : Platform string Remote :=
  {| parseURL := stubParseURL;
     toJSON v := Ok (JString v);
     encodeJSON := renderJSON;
     jsonUnmarshal bytes _ := Ok bytes;
     decodeD1Response _ := envelope;
     decodeSuccess _ := success;
     decodeKeys _ := match success with Ok b => Ok (b, []) | Err e => Err e end;
     decodeObjects _ := match success with Ok b => Ok (b, []) | Err e => Err e end;
     decodeObject _ :=
       match success with
       | Ok b => Ok (b, {| Key := ""; Size := 0; ETag := ""; ContentType := "";
                           LastModified := ""; Metadata := ∅ |})
       | Err e => Err e
       end;
     rangeOrder V m := map_to_list m;
     rangeOrder_perm V m := reflexivity (map_to_list m);
     roundTrip := transport |}.

Definition someConfig (baseURL : string) : CloudflareConfig :=
  {| APIToken := "secret"; AccountID := "acct"; BaseURL := baseURL; Timeout := 30 * Second |}.

(** A world with one configuration, at address 1. *)
Definition oneConfig {Remote : Type} (cfg : CloudflareConfig)
    (env : gmap string string) (r : Remote) : World Remote :=
  {| heap := {[1%positive := cfg]}; environ := env; remote := r; sent := [] |}.

Definition d1At (p : ptr) : D1Client :=
  {| d1_config := p; d1_client := {| ClientTimeout := 30 * Second |} |}.
Definition kvAt (p : ptr) : KVClient :=
  {| kv_config := p; kv_client := {| ClientTimeout := 30 * Second |} |}.
Definition r2At (p : ptr) : R2Client :=
  {| r2_config := p; r2_client := {| ClientTimeout := 30 * Second |} |}.

Definition emptyMeta : D1Meta :=
  {| ChangedDB := false; Changes := 0; Duration := Float32 0; LastRowID := 0;
     RowsRead := 0; RowsWritten := 0; ServedByPrimary := true; ServedByRegion := "";
     SizeAfter := 0; SQLDurationMS := Float32 0 |}.

Definition okResponse (body : string) : Response :=
  {| StatusCode := 200; RespHeader := ∅; RespBody := plainBody body |}.

Definition statusResponse (code : Z) : Response :=
  {| StatusCode := code; RespHeader := ∅; RespBody := plainBody "" |}.

Definition emptyEnvelope : D1Response :=
  {| Errors := []; Messages := []; Result := []; Success := true |}.

Definition failedEnvelope (message : string) : D1Response :=
  {| Errors := [{| ErrCode := 7500; Message := message;
                   DocumentationURL := ""; SourcePointer := "" |}];
     Messages := []; Result := []; Success := false |}.

(** A platform whose transport always answers [resp], whose D1 decoder
    yields [envelope] and whose other decoders read [success]. *)
Definition cannedPlatform (resp : Response) (envelope : D1Response) (success : bool)
  : Platform string unit :=
  stubPlatform (cannedTransport (Ok resp)) (Ok envelope) (Ok success).

(** The stand-ins in front of the object store that keeps what it is
    sent, and a world whose store is empty. *)
Definition echoPlatform : Platform string (gmap string StoredObject) :=
  stubPlatform echoRoundTrip (Ok emptyEnvelope) (Ok true).

Definition echoWorld : World (gmap string StoredObject) :=
  oneConfig (someConfig "https://api.example") ∅ ∅.

(** An upload to that store, the download that follows it, and the
    metadata the two return together. *)
Definition demoUpload (m : gmap string string) :=
  UploadObject echoPlatform (r2At 1%positive) "bucket" "photo" "bytes" "image/jpeg"
    (Some m) echoWorld.

Definition demoDownload (w1 : World (gmap string StoredObject)) :=
  GetObject echoPlatform (r2At 1%positive) "bucket" "photo" w1.

Definition demoRoundTrip (m : gmap string string) : option (list (string * string)) :=
  match demoUpload m with
  | Some (Ok _, w1) =>
      match demoDownload w1 with
      | Some (Ok (_, md), _) => Some (map_to_list md)
      | _ => None
      end
  | _ => None
  end.

Definition demoWorld : World unit :=
  oneConfig (someConfig "https://api.example") ∅ tt.

(** *** A remote key-value store that keeps what it is sent

    The KV endpoint as the library expects it to behave, time to live
    aside: a PUT stores the body under the path of the URL, a GET returns
    it or answers 404, a DELETE removes it. *)
Definition kvRoundTrip (timeout : Z) (req : Request) (store : gmap string string)
  : result Response * gmap string string :=
  let path := urlPath (URL req) in
  if String.eqb (Method req) "PUT" then
    (Ok (okResponse "stored"), <[path := default "" (Body req)]> store)
  else if String.eqb (Method req) "GET" then
    match store !! path with
    | Some value => (Ok (okResponse value), store)
    | None => (Ok (statusResponse 404), store)
    end
  else if String.eqb (Method req) "DELETE" then
    (Ok (okResponse "deleted"), delete path store)
  else (Ok (statusResponse 405), store).

Definition kvPlatform : Platform string (gmap string string) :=
  stubPlatform kvRoundTrip (Ok emptyEnvelope) (Ok true).

Definition kvWorld : World (gmap string string) :=
  oneConfig (someConfig "https://api.example") ∅ ∅.

(** A transport that fails, and a response with one metadata header. *)
Definition failingPlatform (err : error) : Platform string unit :=
  stubPlatform (cannedTransport (Err err)) (Ok emptyEnvelope) (Ok true).

Definition taggedResponse : Response :=
  {| StatusCode := 200;
     RespHeader := {["X-Metadata-User" := ["john"]; "Content-Length" := ["5"]]};
     RespBody := plainBody "bytes" |}.

(** The stand-ins with an encoder that refuses one value, as
    [json.Marshal] refuses a NaN. *)
Definition pickyPlatform : Platform string unit :=
  let S := stubPlatform (cannedTransport (Ok (okResponse "{}"))) (Ok emptyEnvelope) (Ok true) in
  {| parseURL := parseURL S;
     toJSON v := if String.eqb v "NaN" then Err "json: unsupported value: NaN"
                 else Ok (JString v);
     encodeJSON := encodeJSON S;
     jsonUnmarshal := jsonUnmarshal S;
     decodeD1Response := decodeD1Response S;
     decodeSuccess := decodeSuccess S;
     decodeKeys := decodeKeys S;
     decodeObjects := decodeObjects S;
     decodeObject := decodeObject S;
     rangeOrder V m := map_to_list m;
     rangeOrder_perm V m := reflexivity (map_to_list m);
     roundTrip := roundTrip S |}.

(** *** Proof automation for runs of the library *)

Ltac unfold_calls :=
  unfold perform, NewStorageFromEnv, NewStorage, NewConfig, NewD1Client,
    NewR2Client, NewKVClient, createHTTPClient, ExecuteQuery, ListKeys,
    WriteJSON, ReadJSON, WriteValue, ReadValue, DeleteValue, ListObjects,
    UploadObject, GetObject, DeleteObject in *.

Ltac unfold_monad :=
  unfold NewRequest, bind, ret, panic, load, setBaseURL, new, Getenv, Do in *.

(** Formatting and escaping play no part in the control flow of a call:
    they are treated as unknown functions while a run is split. *)
Ltac hide_formatting :=
  let f := fresh "render" in set (f := Sprintf0) in *; clearbody f;
  let g := fresh "decimal" in set (g := itoa) in *; clearbody g;
  let h := fresh "escape" in set (h := escape) in *; clearbody h.

(** Run a call symbolically: split on everything it inspects. *)
Ltac run_call :=
  unfold_calls; unfold PathEscape, QueryEscape in *; hide_formatting; unfold_monad;
  repeat (case_match; simplify_eq/=; try done).

(** Two equations for the same call of a collaborator give one answer. *)
Ltac same_answer :=
  repeat match goal with
         | H1 : ?t = _, H2 : ?t = _ |- _ => rewrite H1 in H2; simplify_eq/=
         end.

(** The request at the end of the log is the one just sent. *)
Ltac last_request :=
  repeat match goal with
         | H : ?l ++ [_] = ?l ++ [_] |- _ => apply app_inj_tail in H as [_ H]; subst
         | H : ?l = ?l ++ [_] |- _ =>
             apply (f_equal length) in H; rewrite length_app in H; simpl in H; lia
         | H : ?l ++ [_] = ?l |- _ =>
             apply (f_equal length) in H; rewrite length_app in H; simpl in H; lia
         end.

(** Split a run on what it inspects, one scrutinee at a time, in the
    hypothesis that holds the run. *)
Ltac split_run H :=
  repeat (match type of H with
          | context [match ?x with _ => _ end] =>
              lazymatch x with
              | context [match _ with _ => _ end] => fail
              | _ => destruct x eqn:?
              end
          end;
          cbn beta iota zeta delta [heap environ remote sent fst snd negb] in H;
          try discriminate H).

Ltac run_in H :=
  unfold perform, NewStorageFromEnv, NewStorage, NewConfig, NewD1Client,
    NewR2Client, NewKVClient, createHTTPClient, ExecuteQuery, ListKeys,
    WriteJSON, ReadJSON, WriteValue, ReadValue, DeleteValue, ListObjects,
    UploadObject, GetObject, DeleteObject in H;
  unfold NewRequest, bind, ret, panic, load, setBaseURL, new, Getenv, Do in H;
  cbn beta iota zeta delta [heap environ remote sent fst snd negb] in H;
  split_run H;
  match type of H with
  | Some (_, _) = Some (?reply, ?w') =>
      let Hreply := fresh in let Hworld := fresh in
      injection H as Hreply Hworld; subst reply w'
  end.

(** The same splitting, in the goal. *)
Ltac split_goal :=
  repeat (match goal with
          | |- context [match ?x with _ => _ end] =>
              lazymatch x with
              | context [match _ with _ => _ end] => fail
              | _ => destruct x eqn:?
              end
          end;
          cbn beta iota zeta delta [heap environ remote sent fst snd negb
                                    fmap option_fmap option_map prod_map id];
          try reflexivity).

End cloudflare.

(** * Properties *)

(** ** Strings *)
Module GoFacts.

Lemma append_cons c p s : String c p +:+ s = String c (p +:+ s).
Proof. reflexivity. Qed.

Lemma append_nil s : "" +:+ s = s.
Proof. reflexivity. Qed.

Lemma HasPrefix_app p s : HasPrefix (p +:+ s) p = true.
Proof.
  induction p as [|c p IH]; [done|].
  rewrite append_cons. simpl. by rewrite Ascii.eqb_refl.
Qed.

Lemma HasPrefix_split s p :
  HasPrefix s p = true -> s = p +:+ dropBytes (String.length p) s.
Proof.
  revert s. induction p as [|c p IH]; intros s; simpl; [done|].
  destruct s as [|d s]; [done|].
  destruct (Ascii.eqb d c) eqn:E; [|done].
  apply Ascii.eqb_eq in E as ->. intros H. rewrite append_cons. f_equal. by apply IH.
Qed.

Lemma dropBytes_app p s : dropBytes (String.length p) (p +:+ s) = s.
Proof. induction p as [|c p IH]; [by destruct s|]. by rewrite append_cons. Qed.

Lemma TrimPrefix_app p s : TrimPrefix (p +:+ s) p = s.
Proof. unfold TrimPrefix. by rewrite HasPrefix_app, dropBytes_app. Qed.

Lemma TrimPrefix_split s p : HasPrefix s p = true -> s = p +:+ TrimPrefix s p.
Proof. intros H. unfold TrimPrefix. rewrite H. by apply HasPrefix_split. Qed.

Lemma HasPrefix_false s p t : HasPrefix s p = false -> s <> p +:+ t.
Proof. intros H ->. by rewrite HasPrefix_app in H. Qed.

Lemma append_inj_r p s t : p +:+ s = p +:+ t -> s = t.
Proof. induction p as [|c p IH]; [done|]. rewrite !append_cons. intros [= H]. by apply IH. Qed.

Lemma String_eqb_false s t : String.eqb s t = false -> s <> t.
Proof. by intros H%String.eqb_neq. Qed.

Lemma allBytes_cons p c s : allBytes p (String c s) = p c && allBytes p s.
Proof. reflexivity. Qed.

Lemma allBytes_app p s t : allBytes p (s +:+ t) = allBytes p s && allBytes p t.
Proof.
  induction s as [|c s IH]; [done|].
  by rewrite append_cons, !allBytes_cons, IH, andb_assoc.
Qed.

Lemma doPrintf_plain s : forall fuel,
  (String.length s <= fuel)%nat -> allBytes notPercent s = true -> doPrintf fuel s = s.
Proof.
  induction s as [|c s IH]; intros fuel Hfuel Hplain; [by destruct fuel|].
  destruct fuel as [|fuel]; [simpl in Hfuel; lia|].
  rewrite allBytes_cons in Hplain. apply andb_true_iff in Hplain as [Hc Hs].
  simpl in *. unfold notPercent in Hc. destruct (Ascii.eqb c "%"); [done|].
  f_equal. apply IH; [lia|done].
Qed.

Lemma append_assoc s t u : (s +:+ t) +:+ u = s +:+ t +:+ u.
Proof. induction s as [|c s IH]; [done|]. by rewrite !append_cons, IH. Qed.

Lemma append_empty_r s : s +:+ "" = s.
Proof. induction s as [|c s IH]; [done|]. by rewrite append_cons, IH. Qed.






(** A format without a percent sign is its own rendering. *)
Lemma Sprintf0_plain s : allBytes notPercent s = true -> Sprintf0 s = s.
Proof. intros H. by apply doPrintf_plain. Qed.

End GoFacts.

(** ** fmt: the format loop has fuel enough *)
Module FmtFacts.
Import GoFacts.
#[local] Open Scope nat_scope.

Lemma skipFlags_length s : String.length (skipFlags s) <= String.length s.
Proof.
  induction s as [|c s IH]; simpl; [lia|].
  destruct (byteOneOf "#0+- " c); simpl; lia.
Qed.

Lemma parsenum_length s : forall num isnum,
  posLength (parsenum num isnum s).2 <= String.length s.
Proof.
  induction s as [|c s IH]; intros num isnum; simpl; [lia|].
  destruct (isDigit c); simpl; [|lia].
  destruct (1000000 <? num)%Z; simpl; [lia|].
  specialize (IH (num * 10 + (Z.of_N (N_of_ascii c) - 48))%Z true). lia.
Qed.

Lemma dropBytes_length n s : String.length (dropBytes n s) <= String.length s.
Proof.
  revert s. induction n as [|n IH]; intros [|c s]; simpl; try lia.
  specialize (IH s). lia.
Qed.

Lemma argNumber_length s found rest :
  argNumber s = Some (found, rest) -> String.length rest < String.length s.
Proof.
  unfold argNumber. destruct s as [|c s]; [done|].
  destruct (negb (Ascii.eqb c "[")); [done|].
  destruct (String.length (String c s) <? 3).
  - intros [= _ <-]. simpl. lia.
  - destruct (indexByte "]" s) as [j|].
    + intros [= _ <-]. pose proof (dropBytes_length (S j) s). simpl in *. lia.
    + intros [= _ <-]. simpl. lia.
Qed.

Lemma indexStep_length good s :
  String.length (indexStep good s).2 <= String.length s.
Proof.
  unfold indexStep. destruct (argNumber s) as [[found rest]|] eqn:Harg; simpl; [|lia].
  apply argNumber_length in Harg. lia.
Qed.

Lemma widthStep_length good afterIndex s :
  posLength (widthStep good afterIndex s).2 <= String.length s.
Proof.
  unfold widthStep. destruct (startsWith "*" s); simpl.
  - apply (dropBytes_length 1).
  - pose proof (parsenum_length s 0%Z false).
    by destruct (parsenum 0 false s).
Qed.

Lemma precisionStep_length good afterIndex pos :
  posLength (precisionStep good afterIndex pos).2 <= posLength pos.
Proof.
  unfold precisionStep. destruct pos as [s|]; simpl; [|lia].
  destruct (startsWith "." s); simpl; [|lia].
  pose proof (indexStep_length (good && negb afterIndex) (dropBytes 1 s)) as Hindex.
  pose proof (dropBytes_length 1 s) as Hdot.
  destruct (indexStep _ _) as [[good' afterIndex'] s']. simpl in Hindex.
  destruct (startsWith "*" s'); simpl.
  - pose proof (dropBytes_length 1 s'). simpl in *. lia.
  - pose proof (parsenum_length s' 0%Z false).
    destruct (parsenum 0 false s'). simpl in *. lia.
Qed.

Lemma lastIndexStep_length good afterIndex pos :
  posLength (lastIndexStep good afterIndex pos).2 <= posLength pos.
Proof.
  unfold lastIndexStep. destruct pos as [s|]; simpl; [|lia].
  destruct afterIndex; simpl; [lia|].
  pose proof (indexStep_length good s).
  by destruct (indexStep good s) as [[good' afterIndex'] s'].
Qed.

Lemma verbStep_length good pos :
  posLength (verbStep good pos).2 <= posLength pos.
Proof.
  unfold verbStep. destruct pos as [[|c s]|]; simpl; try lia.
  destruct (decodeRune c s) as [verb size].
  pose proof (dropBytes_length (Nat.pred size) s).
  destruct (Ascii.eqb c "%"); [|destruct good]; simpl; lia.
Qed.

(** A directive resumes inside the text it was given. *)
Lemma directive_length s :
  posLength (directive s).2 <= String.length s.
Proof.
  unfold directive.
  pose proof (skipFlags_length s) as Hflags.
  pose proof (indexStep_length true (skipFlags s)) as H1.
  destruct (indexStep true (skipFlags s)) as [[good afterIndex] s1]. simpl in H1.
  pose proof (widthStep_length good afterIndex s1) as H2.
  destruct (widthStep good afterIndex s1) as [[[out1 good2] afterIndex2] pos2].
  simpl in H2.
  pose proof (precisionStep_length good2 afterIndex2 pos2) as H3.
  destruct (precisionStep good2 afterIndex2 pos2) as [[[out2 good3] afterIndex3] pos3].
  simpl in H3.
  pose proof (lastIndexStep_length good3 afterIndex3 pos3) as H4.
  destruct (lastIndexStep good3 afterIndex3 pos3) as [good4 pos4]. simpl in H4.
  pose proof (verbStep_length good4 pos4) as H5.
  destruct (verbStep good4 pos4) as [out3 rest]. simpl in *. lia.
Qed.

(** The format loop never runs out of rounds: any fuel of at least the
    length of the format gives the same rendering. *)
Lemma doPrintf_fuel fuel : forall fuel' s,
  String.length s <= fuel -> String.length s <= fuel' ->
  doPrintf fuel s = doPrintf fuel' s.
Proof.
  induction fuel as [|fuel IH]; intros fuel' s Hfuel Hfuel'.
  - destruct s; [by destruct fuel'|simpl in Hfuel; lia].
  - destruct s as [|c s]; [by destruct fuel'|].
    destruct fuel' as [|fuel']; [simpl in Hfuel'; lia|].
    simpl in *. destruct (Ascii.eqb c "%").
    + pose proof (directive_length s) as Hrest.
      destruct (directive s) as [out [rest|]]; [|done]. simpl in Hrest.
      f_equal. apply IH; lia.
    + f_equal. apply IH; lia.
Qed.

Lemma Sprintf0_fuel s fuel :
  String.length s <= fuel -> doPrintf fuel s = Sprintf0 s.
Proof. intros H. by apply doPrintf_fuel. Qed.

End FmtFacts.

(** ** Package firebase *)
Module firebase_props.
Import firebase GoFacts.

Example extract_bearer :
  GetTokenFromRequest (requestWith (Some "Bearer abc123")) = Ok "abc123".
Proof. reflexivity. Qed.

Example extract_other_scheme :
  GetTokenFromRequest (requestWith (Some "Token abc123")) = Err errHeaderFormat.
Proof. reflexivity. Qed.

Example extract_empty_header :
  GetTokenFromRequest (requestWith (Some "")) = Err errHeaderRequired.
Proof. reflexivity. Qed.

Example extract_no_header :
  GetTokenFromRequest (requestWith None) = Err errHeaderRequired.
Proof. reflexivity. Qed.

(** The prefix is removed once: what follows it is returned as it is. *)
Example extract_keeps_suffix :
  GetTokenFromRequest (requestWith (Some "Bearer Bearer x")) = Ok "Bearer x".
Proof. reflexivity. Qed.

(** C2. [GetTokenFromRequest] returns a token exactly when the
    Authorization header reads ["Bearer "] followed by that token; for a
    header that is absent (read as the empty string) or of any other shape
    it fails with one of the two missing-or-malformed-header errors.  The
    inputs named by the specification behave accordingly. *)
Theorem bearer_extraction :
  (forall r : Request,
     let authHeader := Header_Get (Header r) "Authorization" in
     match GetTokenFromRequest r with
     | Ok token => authHeader = "Bearer " +:+ token
     | Err err =>
         (forall token, authHeader <> "Bearer " +:+ token) /\
         (err = errHeaderRequired \/ err = errHeaderFormat)
     end) /\
  (forall r : Request, Header r !! "Authorization" = None ->
     GetTokenFromRequest r = Err errHeaderRequired) /\
  GetTokenFromRequest (requestWith (Some "Bearer abc123")) = Ok "abc123" /\
  GetTokenFromRequest (requestWith (Some "Token abc123")) = Err errHeaderFormat /\
  GetTokenFromRequest (requestWith (Some "")) = Err errHeaderRequired /\
  GetTokenFromRequest (requestWith None) = Err errHeaderRequired.
Proof.
  split; [|split; [|by repeat split]].
  - intros r authHeader. unfold GetTokenFromRequest. fold authHeader.
    destruct (String.eqb authHeader "") eqn:Hempty.
    + apply String.eqb_eq in Hempty. split; [|by left].
      intros token. by rewrite Hempty.
    + destruct (HasPrefix authHeader "Bearer ") eqn:Hpre.
      * by apply TrimPrefix_split.
      * split; [|by right]. intros token. by apply HasPrefix_false.
  - intros r Hnone. unfold GetTokenFromRequest, Header_Get.
    change (CanonicalMIMEHeaderKey "Authorization") with "Authorization".
    by rewrite Hnone.
Qed.

Example wrapper_valid_token :
  AuthMiddleware testVerifier (spy greet) (NewRecorder, [])
    (requestWith (Some "Bearer valid-token"))
  = ({| Code := 200; HeaderMap := ∅; Body := "Hello, user-123"; wroteHeader := true |},
     [WithContext (requestWith (Some "Bearer valid-token"))
        [(uidKey, anyString "user-123");
         (tokenKey, anyToken {| UID := "user-123"; Issuer := "test";
                                Subject := "user-123"; Claims := [] |})]]).
Proof. reflexivity. Qed.

Example wrapper_bad_token :
  let out := RequireAuth testVerifier (spy greet) (NewRecorder, [])
               (requestWith (Some "Bearer bad-token")) in
  out.2 = [] /\ Code out.1 = 401 /\
  Body out.1 = "Invalid token: error verifying ID token: invalid token" +:+ newline.
Proof. by repeat split. Qed.

(** A handler that runs outside the wrapper finds no identity. *)
Example accessors_fail_outside_wrapper :
  GetUIDFromContext [] = Err "uid not found in context or not a string" /\
  GetTokenFromContext [(foreignKey "string" "token", anyOther "x")]
  = Err "token not found in context or not correct type".
Proof. by split. Qed.

(** The status a recorder ends with after [http.Error]. *)
Lemma http_Error_code (w : ResponseRecorder) msg code :
  Code (http_Error w msg code) = if wroteHeader w then Code w else code.
Proof.
  unfold http_Error. simpl. unfold rec_Write, rec_WriteHeader, rec_PutHeader. simpl.
  destruct (wroteHeader w) eqn:E; simpl; by rewrite ?E.
Qed.

(** C1. Both wrappers do the same on every request.  When extraction or
    verification fails, the downstream handler is not called (its call log
    stays empty and the response does not depend on it), the response is
    the one [http.Error] writes with status 401, and 401 is the status sent
    unless a status had been sent before the wrapper ran.  When
    verification succeeds, the wrapper does nothing but call the
    downstream handler, once, on the untouched writer and on the request
    whose context yields the verified UID and token. *)
Theorem auth_wrapper_gate (fa : FirebaseAuth) (next : Handler ResponseRecorder)
    (w : ResponseRecorder) (r : Request) :
  let out := AuthMiddleware fa (spy next) (w, []) r in
  RequireAuth fa (spy next) (w, []) r = out /\
  match authenticate fa r with
  | Err _ =>
      out.2 = [] /\
      (exists msg, out.1 = http_Error w msg StatusUnauthorized) /\
      Code out.1 = (if wroteHeader w then Code w else 401) /\
      (forall next' : Handler ResponseRecorder, AuthMiddleware fa next' w r = out.1)
  | Ok token =>
      exists r', out = (next w r', [r']) /\
        GetUIDFromContext (Ctx r') = Ok (UID token) /\
        GetTokenFromContext (Ctx r') = Ok token /\
        Header r' = Header r /\ Method r' = Method r /\ Path r' = Path r
  end.
Proof.
  intros out. split; [done|]. subst out.
  unfold authenticate, AuthMiddleware.
  destruct (GetTokenFromRequest r) as [idToken|err].
  - destruct (VerifyIDToken fa (Ctx r) idToken) as [token|err].
    + eexists. split; [reflexivity|]. by repeat split.
    + split; [done|]. split; [by eexists|]. split; [|done].
      apply http_Error_code.
  - split; [done|]. split; [by eexists|]. split; [|done].
    apply http_Error_code.
Qed.

End firebase_props.

(** ** Package cloudflare *)
Module cloudflare_props.
Import cloudflare GoFacts.

Section Clients.
Context {any Remote : Type} (P : Platform any Remote).

(** C7. When the transport answers the request of [ExecuteQuery] with
    status 200 and the decoded envelope reports success, the call returns
    the first item of the result list, and fails with the empty-result
    error when the list is empty; it never returns a made-up item. *)
Theorem execute_query_result_list (d : D1Client) (databaseID query : string)
    (params : list any) (w w' : World Remote) (res : result D1ResponseItem)
    (resp : Response) (response : D1Response) :
  ExecuteQuery P d databaseID query params w = Some (res, w') ->
  answered P (ClientTimeout (d1_client d)) w w' resp ->
  StatusCode resp = 200 ->
  decodeD1Response P (RespBody resp) = Ok response ->
  Success response = true ->
  res = match Result response with
        | [] => Err "empty result set"
        | item :: _ => Ok item
        end.
Proof.
  intros Hrun (req & remote' & Hsent & Htrip) Hstatus Hdecode Hsuccess.
  unfold StatusOK in *.
  run_call; last_request; same_answer; rewrite ?Hstatus, ?Hsuccess in *; by simplify_eq/=.
Qed.

(** C8. A 404 answer makes [ReadValue] fail with the key-not-found
    error, and that error is told apart from every other failure of the
    call: whenever [ReadValue] fails with an error recognised as not-found,
    the transport did answer 404. *)
Theorem read_value_not_found (k : KVClient) (namespaceID key : string)
    (w w' : World Remote) (res : result string) :
  ReadValue P k namespaceID key w = Some (res, w') ->
  (forall resp, answered P (ClientTimeout (kv_client k)) w w' resp ->
     StatusCode resp = 404 -> res = Err ("key not found: " +:+ key)) /\
  (forall err, res = Err err -> isNotFound err = true ->
     exists resp, answered P (ClientTimeout (kv_client k)) w w' resp /\
                  StatusCode resp = 404) /\
  isNotFound ("key not found: " +:+ key) = true.
Proof.
  intros Hrun. unfold StatusOK, StatusNotFound in *. split; [|split].
  - intros resp (req & remote' & Hsent & Htrip) Hstatus.
    run_call; last_request; same_answer; rewrite ?Hstatus in *; by simplify_eq/=.
  - intros err -> Hnf. unfold isNotFound in Hnf.
    run_call; try (lazy in Hnf; discriminate).
    eexists. split; [eexists _, _; split; [reflexivity|eassumption]|].
    by apply Z.eqb_eq.
  - apply HasPrefix_app.
Qed.

(** [ReadJSON] passes the not-found error on as it is, and its own
    decoding error is not taken for it. *)
Lemma read_json_not_found (k : KVClient) (namespaceID key : string) (target : any)
    (w w' : World Remote) (err : error) :
  ReadJSON P k namespaceID key target w = Some (Err err, w') ->
  isNotFound err = true ->
  ReadValue P k namespaceID key w = Some (Err err, w').
Proof.
  unfold ReadJSON, bind, ret. intros Hrun Hnf.
  destruct (ReadValue P k namespaceID key w) as [[[bytes|err'] w1]|]; [|by simplify_eq|done].
  destruct (jsonUnmarshal P bytes target); by simplify_eq.
Qed.

(** C10. A 200 answer whose envelope says [success: false] still makes
    [DeleteObject] report success: the body is not looked at.  The same
    answer makes the mutating KV calls fail. *)
Theorem delete_object_ignores_envelope (r : R2Client) (k : KVClient)
    (bucketName namespaceID key value : string) (expiration : option Z)
    (w w' : World Remote) (resp : Response) :
  StatusCode resp = 200 ->
  decodeSuccess P (RespBody resp) = Ok false ->
  (forall res, DeleteObject P r bucketName key w = Some (res, w') ->
     answered P (ClientTimeout (r2_client r)) w w' resp -> res = Ok tt) /\
  (forall res, DeleteValue P k namespaceID key w = Some (res, w') ->
     answered P (ClientTimeout (kv_client k)) w w' resp ->
     res = Err "request was not successful") /\
  (forall res, WriteValue P k namespaceID key value expiration w = Some (res, w') ->
     answered P (ClientTimeout (kv_client k)) w w' resp ->
     res = Err "request was not successful").
Proof.
  intros Hstatus Hdecode. unfold StatusOK in *.
  repeat split; intros res Hrun (req & remote' & Hsent & Htrip);
    run_call; last_request; same_answer; rewrite ?Hstatus in *; by simplify_eq/=.
Qed.

(** [DeleteObject] succeeds on a 200 answer whatever the decoder would
    make of the body. *)
Lemma delete_object_any_body (r : R2Client) (bucketName key : string)
    (w w' : World Remote) (res : result unit) (resp : Response) :
  DeleteObject P r bucketName key w = Some (res, w') ->
  answered P (ClientTimeout (r2_client r)) w w' resp ->
  StatusCode resp = 200 -> res = Ok tt.
Proof.
  intros Hrun (req & remote' & Hsent & Htrip) Hstatus. unfold StatusOK in *.
  run_call; last_request; same_answer; rewrite ?Hstatus in *; by simplify_eq/=.
Qed.

(** *** ExecuteQuery: the request and the failures (C9) *)

(** The request body has the field [params] exactly when parameters were
    passed. *)
Lemma execute_query_request (d : D1Client) (databaseID query : string)
    (params : list any) (cfg : CloudflareConfig) (w w' : World Remote)
    (res : result D1ResponseItem) (req : Request) :
  ExecuteQuery P d databaseID query params w = Some (res, w') ->
  heap w !! d1_config d = Some cfg ->
  sent w' = sent w ++ [req] ->
  Method req = "POST" /\
  URL req = BaseURL cfg +:+ "/accounts/" +:+ AccountID cfg +:+
            "/d1/database/" +:+ databaseID +:+ "/query" /\
  exists fields,
    Body req = Some (encodeJSON P (JObject fields)) /\
    fields !! 0%nat = Some ("sql", JString query) /\
    ("params" ∈ fields.*1 <-> params <> []).
Proof.
  intros Hrun Hcfg Hsent.
  unfold ExecuteQuery, requestDocument in Hrun. unfold_monad.
  rewrite Hcfg in Hrun. simpl in Hrun.
  destruct params as [|p params]; simpl in Hrun.
  - repeat (case_match; simplify_eq/=); last_request.
    all: split; [done|split; [done|]].
    all: eexists; split; [reflexivity|split; [done|]].
    all: simpl; split; [|done].
    all: by intros [=]%list_elem_of_singleton.
  - repeat (case_match; simplify_eq/=); last_request.
    all: split; [done|split; [done|]].
    all: eexists; split; [reflexivity|split; [done|]].
    all: simpl; split; [done|].
    all: intros _; apply elem_of_cons; right; apply list_elem_of_singleton; done.
Qed.

(** A status other than 200 fails the call with an error that names the
    status. *)
Lemma execute_query_status (d : D1Client) (databaseID query : string)
    (params : list any) (w w' : World Remote) (res : result D1ResponseItem)
    (resp : Response) :
  ExecuteQuery P d databaseID query params w = Some (res, w') ->
  answered P (ClientTimeout (d1_client d)) w w' resp ->
  StatusCode resp <> 200 ->
  res = Err ("unexpected status code: " +:+ itoa (StatusCode resp) +:+
             ", body: " +:+ data (RespBody resp)).
Proof.
  intros Hrun (req & remote' & Hsent & Htrip) Hstatus. unfold StatusOK in *.
  run_call; last_request; same_answer; try done.
  all: match goal with H : negb _ = false |- _ => apply negb_false_iff, Z.eqb_eq in H end.
  all: done.
Qed.

(** An envelope with [success: false] fails the call, with the first
    message of the server when that message holds no percent sign. *)
Lemma execute_query_unsuccessful (d : D1Client) (databaseID query : string)
    (params : list any) (w w' : World Remote) (res : result D1ResponseItem)
    (resp : Response) (response : D1Response) :
  ExecuteQuery P d databaseID query params w = Some (res, w') ->
  answered P (ClientTimeout (d1_client d)) w w' resp ->
  StatusCode resp = 200 ->
  decodeD1Response P (RespBody resp) = Ok response ->
  Success response = false ->
  res = Err (Sprintf0 match Errors response with
                      | e :: _ => "request was not successful: " +:+ Message e
                      | [] => "request was not successful"
                      end) /\
  forall e rest, Errors response = e :: rest ->
    allBytes notPercent (Message e) = true ->
    res = Err ("request was not successful: " +:+ Message e).
Proof.
  intros Hrun (req & remote' & Hsent & Htrip) Hstatus Hdecode Hsuccess.
  assert (res = Err (Sprintf0 match Errors response with
                              | e :: _ => "request was not successful: " +:+ Message e
                              | [] => "request was not successful"
                              end)) as ->.
  { unfold StatusOK in *.
    run_call; last_request; same_answer; rewrite ?Hstatus, ?Hsuccess in *;
      by simplify_eq/=. }
  split; [done|]. intros e rest -> Hplain. f_equal.
  apply Sprintf0_plain. by rewrite allBytes_app, Hplain.
Qed.

(** *** KV: the URL of every call (C4) *)


(** When the URL of [ReadValue], [WriteValue], [DeleteValue] or [ListKeys]
    parses, exactly one request goes out, to that URL. *)
Lemma kv_request_sent (c : Call) (k : KVClient) (cfg : CloudflareConfig)
    (w w' : World Remote) (reply : Reply) (url : string) :
  match c with
  | CallListKeys _ _ _ | CallWriteValue _ _ _ _ _
  | CallReadValue _ _ _ | CallDeleteValue _ _ _ => True
  | _ => False
  end ->
  kvClientOf c = Some k ->
  heap w !! kv_config k = Some cfg ->
  kvURL cfg c = Some url ->
  parseURL P url = None ->
  perform P c w = Some (reply, w') ->
  exists req, sent w' = sent w ++ [req] /\ URL req = url.
Proof.
  intros Hbasic Hclient Hcfg Hurl Hparse Hrun.
  unfold kvURL, kvURLWith in Hurl.
  destruct c; try done; simplify_eq/=.
  all: rewrite ?append_assoc, ?append_empty_r in Hparse.
  all: run_call; same_answer.
  all: try (eexists; split; [reflexivity|]; simpl; by rewrite ?append_assoc, ?append_empty_r).
  all: rewrite ?append_assoc, ?append_empty_r in *; congruence.
Qed.

(** *** The shared configuration (C5) *)

Lemma withHeap_same (w : World Remote) h : h = heap w -> withHeap h w = w.
Proof. intros ->. by destruct w. Qed.

Lemma defaulted_fields cfg :
  APIToken (defaulted cfg) = APIToken cfg /\
  AccountID (defaulted cfg) = AccountID cfg /\
  Timeout (defaulted cfg) = Timeout cfg /\
  BaseURL (defaulted cfg)
  = if String.eqb (BaseURL cfg) "" then defaultBaseURL else BaseURL cfg.
Proof. unfold defaulted. by destruct (String.eqb (BaseURL cfg) ""). Qed.

Lemma defaulted_idemp cfg : defaulted (defaulted cfg) = defaulted cfg.
Proof. unfold defaulted. by destruct (String.eqb (BaseURL cfg) "") eqn:E; simpl; rewrite ?E. Qed.

(** What the three constructors do: dereference the configuration, write
    the default base URL into it when it has none, copy the timeout. *)
Lemma NewD1Client_run config (w : World Remote) :
  NewD1Client config w
  = (fun cfg => ({| d1_config := config; d1_client := {| ClientTimeout := Timeout cfg |} |},
                 withHeap (<[config := defaulted cfg]> (heap w)) w)) <$> heap w !! config.
Proof.
  unfold NewD1Client, createHTTPClient. unfold_monad.
  destruct (heap w !! config) as [cfg|] eqn:Hcfg; [|done]. simpl.
  unfold defaulted. destruct (String.eqb (BaseURL cfg) "") eqn:Hbase; simpl.
  - rewrite Hcfg. simpl. by rewrite lookup_insert_eq.
  - rewrite Hcfg. simpl. by rewrite insert_id, withHeap_same.
Qed.

Lemma NewR2Client_run config (w : World Remote) :
  NewR2Client config w
  = (fun cfg => ({| r2_config := config; r2_client := {| ClientTimeout := Timeout cfg |} |},
                 withHeap (<[config := defaulted cfg]> (heap w)) w)) <$> heap w !! config.
Proof.
  unfold NewR2Client, createHTTPClient. unfold_monad.
  destruct (heap w !! config) as [cfg|] eqn:Hcfg; [|done]. simpl.
  unfold defaulted. destruct (String.eqb (BaseURL cfg) "") eqn:Hbase; simpl.
  - rewrite Hcfg. simpl. by rewrite lookup_insert_eq.
  - rewrite Hcfg. simpl. by rewrite insert_id, withHeap_same.
Qed.

Lemma NewKVClient_run config (w : World Remote) :
  NewKVClient config w
  = (fun cfg => ({| kv_config := config; kv_client := {| ClientTimeout := Timeout cfg |} |},
                 withHeap (<[config := defaulted cfg]> (heap w)) w)) <$> heap w !! config.
Proof.
  unfold NewKVClient, createHTTPClient. unfold_monad.
  destruct (heap w !! config) as [cfg|] eqn:Hcfg; [|done]. simpl.
  unfold defaulted. destruct (String.eqb (BaseURL cfg) "") eqn:Hbase; simpl.
  - rewrite Hcfg. simpl. by rewrite lookup_insert_eq.
  - rewrite Hcfg. simpl. by rewrite insert_id, withHeap_same.
Qed.

Lemma NewStorage_run config (w : World Remote) :
  NewStorage config w
  = (fun cfg =>
       let client := {| ClientTimeout := Timeout cfg |} in
       ({| D1 := {| d1_config := config; d1_client := client |};
           R2 := {| r2_config := config; r2_client := client |};
           KV := {| kv_config := config; kv_client := client |} |},
        withHeap (<[config := defaulted cfg]> (heap w)) w)) <$> heap w !! config.
Proof.
  unfold NewStorage, bind, ret.
  rewrite NewD1Client_run.
  destruct (heap w !! config) as [cfg|] eqn:Hcfg; [|done]. simpl.
  rewrite NewR2Client_run. simpl. rewrite lookup_insert_eq. simpl.
  rewrite NewKVClient_run. simpl. rewrite lookup_insert_eq. simpl.
  destruct (defaulted_fields cfg) as (_ & _ & Htimeout & _).
  by rewrite !defaulted_idemp, !insert_insert_eq, !Htimeout,
    ?(proj1 (proj2 (proj2 (defaulted_fields (defaulted cfg))))), ?Htimeout.
Qed.

(** The calls of the clients leave the heap of configurations as it is. *)
Lemma client_calls_keep_heap (c : Call) (w w' : World Remote) (reply : Reply) :
  match c with
  | CallNewConfig _ _ | CallNewD1Client _ | CallNewR2Client _ | CallNewKVClient _
  | CallNewStorage _ | CallNewStorageFromEnv => False
  | _ => True
  end ->
  perform P c w = Some (reply, w') -> heap w' = heap w.
Proof. intros Hclient Hrun. destruct c; try done; by run_call. Qed.

(** What a freshly allocated configuration does to the ones there. *)
Lemma fresh_keeps (h : gmap ptr CloudflareConfig) q cfg cfg0 :
  h !! q = Some cfg -> <[fresh (dom h) := cfg0]> h !! q = Some cfg.
Proof.
  intros Hq. rewrite lookup_insert_ne; [done|].
  intros Heq. apply (is_fresh (dom h)). rewrite Heq. by apply elem_of_dom.
Qed.

(** What a constructor does to the configuration at [q]. *)
Lemma constructed_frame (h : gmap ptr CloudflareConfig) config q cfg0 cfg :
  h !! config = Some cfg0 -> h !! q = Some cfg ->
  exists cfg',
    <[config := defaulted cfg0]> h !! q = Some cfg' /\
    APIToken cfg' = APIToken cfg /\ AccountID cfg' = AccountID cfg /\
    Timeout cfg' = Timeout cfg /\
    BaseURL cfg' = if Pos.eqb config q && String.eqb (BaseURL cfg) ""
                   then defaultBaseURL else BaseURL cfg.
Proof.
  intros Hconfig Hq. destruct (Pos.eqb_spec config q) as [->|Hne].
  - rewrite Hconfig in Hq. injection Hq as ->.
    exists (defaulted cfg). rewrite lookup_insert_eq.
    split; [done|]. apply defaulted_fields.
  - exists cfg. by rewrite lookup_insert_ne.
Qed.

(** C5, as the code has it.  No call of the library changes the API
    token, the account ID or the timeout of a configuration, and none
    removes one.  The base URL of a configuration is written by the
    constructors only ([NewD1Client], [NewR2Client], [NewKVClient],
    [NewStorage]), only in the configuration they are given, and only when
    it is empty: it then becomes the default URL. *)
Theorem config_frame (c : Call) (w w' : World Remote) (reply : Reply)
    (q : ptr) (cfg : CloudflareConfig) :
  perform P c w = Some (reply, w') ->
  heap w !! q = Some cfg ->
  exists cfg',
    heap w' !! q = Some cfg' /\
    APIToken cfg' = APIToken cfg /\ AccountID cfg' = AccountID cfg /\
    Timeout cfg' = Timeout cfg /\
    BaseURL cfg' = if constructs c q && String.eqb (BaseURL cfg) ""
                   then defaultBaseURL else BaseURL cfg.
Proof.
  intros Hrun Hq.
  destruct c;
    try (match type of Hrun with
         | perform _ ?call _ = _ =>
             rewrite (client_calls_keep_heap call w w' reply I Hrun)
         end; by exists cfg).
  - unfold perform, NewConfig in Hrun. unfold_monad. simplify_eq/=.
    exists cfg. split; [by apply fresh_keeps|done].
  - unfold perform, bind, ret in Hrun. rewrite NewD1Client_run in Hrun.
    destruct (heap w !! config) as [cfg0|] eqn:Hconfig; simplify_eq/=.
    by apply constructed_frame.
  - unfold perform, bind, ret in Hrun. rewrite NewR2Client_run in Hrun.
    destruct (heap w !! config) as [cfg0|] eqn:Hconfig; simplify_eq/=.
    by apply constructed_frame.
  - unfold perform, bind, ret in Hrun. rewrite NewKVClient_run in Hrun.
    destruct (heap w !! config) as [cfg0|] eqn:Hconfig; simplify_eq/=.
    by apply constructed_frame.
  - unfold perform, bind, ret in Hrun. rewrite NewStorage_run in Hrun.
    destruct (heap w !! config) as [cfg0|] eqn:Hconfig; simplify_eq/=.
    by apply constructed_frame.
  - unfold perform, NewStorageFromEnv, bind, ret, Getenv, new in Hrun.
    rewrite NewStorage_run in Hrun. simpl in Hrun.
    rewrite lookup_insert_eq in Hrun. simplify_eq/=.
    exists cfg. rewrite insert_insert_eq. split; [by apply fresh_keeps|done].
Qed.

(** *** The process environment (C6) *)










End Clients.

(** C7 on a concrete run: a 200 answer, a successful envelope, no result. *)
Lemma execute_query_result_list_witness :
  match ExecuteQuery (cannedPlatform (okResponse "{}") emptyEnvelope true)
          (d1At 1%positive) "db" "SELECT 1" [] demoWorld with
  | Some (res, _) => res = Err "empty result set"
  | None => False
  end.
Proof.
  destruct (ExecuteQuery _ _ _ _ _ _) as [[res w']|] eqn:Hrun;
    [|by vm_compute in Hrun].
  apply (execute_query_result_list _ (d1At 1%positive) "db" "SELECT 1" [] demoWorld w' res
           (okResponse "{}") emptyEnvelope Hrun).
  - vm_compute in Hrun. injection Hrun as <- <-.
    eexists _, _. split; reflexivity.
  - reflexivity.
  - reflexivity.
  - reflexivity.
Defined.

(** C8 on a concrete run: the transport answers 404. *)
Lemma read_value_not_found_witness :
  match ReadValue (cannedPlatform (statusResponse 404) emptyEnvelope true)
          (kvAt 1%positive) "ns" "missing" demoWorld with
  | Some (res, _) => res = Err "key not found: missing"
  | None => False
  end.
Proof.
  destruct (ReadValue _ _ _ _ _) as [[res w']|] eqn:Hrun; [|by vm_compute in Hrun].
  destruct (read_value_not_found _ (kvAt 1%positive) "ns" "missing" demoWorld w' res Hrun)
    as [Hnotfound _].
  apply (Hnotfound (statusResponse 404)); [|reflexivity].
  vm_compute in Hrun. injection Hrun as <- <-.
  eexists _, _. split; reflexivity.
Defined.

(** C10 on a concrete run: status 200, envelope [success: false]. *)
Lemma delete_object_ignores_envelope_witness :
  match DeleteObject (cannedPlatform (okResponse "{}") emptyEnvelope false)
          (r2At 1%positive) "bucket" "key" demoWorld,
        DeleteValue (cannedPlatform (okResponse "{}") emptyEnvelope false)
          (kvAt 1%positive) "ns" "key" demoWorld with
  | Some (res, _), Some (res', _) =>
      res = Ok tt /\ res' = Err "request was not successful"
  | _, _ => False
  end.
Proof.
  destruct (DeleteObject _ _ _ _ _) as [[res w']|] eqn:Hrun; [|by vm_compute in Hrun].
  destruct (DeleteValue _ _ _ _ _) as [[res' w'']|] eqn:Hrun'; [|by vm_compute in Hrun'].
  split.
  - destruct (delete_object_ignores_envelope
                (cannedPlatform (okResponse "{}") emptyEnvelope false)
                (r2At 1%positive) (kvAt 1%positive) "bucket" "ns" "key" "" None demoWorld w'
                (okResponse "{}") eq_refl eq_refl) as [Hdelete _].
    apply (Hdelete res Hrun).
    vm_compute in Hrun. injection Hrun as <- <-. eexists _, _. split; reflexivity.
  - destruct (delete_object_ignores_envelope
                (cannedPlatform (okResponse "{}") emptyEnvelope false)
                (r2At 1%positive) (kvAt 1%positive) "bucket" "ns" "key" "" None demoWorld w''
                (okResponse "{}") eq_refl eq_refl) as (_ & Hdelete & _).
    apply (Hdelete res' Hrun').
    vm_compute in Hrun'. injection Hrun' as <- <-. eexists _, _. split; reflexivity.
Defined.



(** C5 on a concrete run: [NewStorage] on a configuration without base
    URL. *)
Lemma config_frame_witness :
  match perform (cannedPlatform (okResponse "{}") emptyEnvelope true)
          (CallNewStorage 1%positive) (oneConfig (someConfig "") ∅ tt) with
  | Some (_, w') =>
      exists cfg',
        heap w' !! 1%positive = Some cfg' /\
        APIToken cfg' = "secret" /\ AccountID cfg' = "acct" /\
        Timeout cfg' = 30 * Second /\ BaseURL cfg' = defaultBaseURL
  | None => False
  end.
Proof.
  destruct (perform _ _ _) as [[reply w']|] eqn:Hrun; [|by vm_compute in Hrun].
  exact (config_frame (cannedPlatform (okResponse "{}") emptyEnvelope true)
           (CallNewStorage 1%positive) (oneConfig (someConfig "") ∅ tt) w' reply
           1%positive (someConfig "") Hrun eq_refl).
Defined.

(** C5 as the specification words it does not hold: a constructor writes
    the base URL of the configuration it is given. *)
Lemma constructor_mutates_base_url :
  ~ (forall (c : Call) (w w' : World unit) (reply : Reply)
            (q : ptr) (cfg : CloudflareConfig),
       perform (cannedPlatform (okResponse "{}") emptyEnvelope true) c w
       = Some (reply, w') ->
       heap w !! q = Some cfg -> heap w' !! q = Some cfg).
Proof.
  intros Himmutable.
  destruct (perform (cannedPlatform (okResponse "{}") emptyEnvelope true)
              (CallNewR2Client 1%positive) (oneConfig (someConfig "") ∅ tt))
    as [[reply w']|] eqn:Hrun; [|by vm_compute in Hrun].
  pose proof (Himmutable (CallNewR2Client 1%positive) _ w' reply 1%positive
                (someConfig "") Hrun eq_refl) as Hsame.
  vm_compute in Hrun. injection Hrun as <- <-.
  vm_compute in Hsame. discriminate.
Qed.



(** The request bodies of two queries, one without and one with
    parameters, as the stand-in encoder writes them. *)
Example execute_query_bodies :
  (fun run => Body <$> sent run.2) <$>
    ExecuteQuery (cannedPlatform (okResponse "{}") emptyEnvelope true)
      (d1At 1%positive) "db" "SELECT 1" [] demoWorld
  = Some [Some "{sql:SELECT 1,}"] /\
  (fun run => Body <$> sent run.2) <$>
    ExecuteQuery (cannedPlatform (okResponse "{}") emptyEnvelope true)
      (d1At 1%positive) "db" "SELECT * FROM users WHERE name = ?" ["John"] demoWorld
  = Some [Some "{sql:SELECT * FROM users WHERE name = ?,params:[John,],}"].
Proof. split; vm_compute; reflexivity. Qed.

(** C9, the failing input.  The server reports an error whose message
    holds a percent sign; [ExecuteQuery] hands the message to [fmt.Errorf]
    as the format, and the error it returns no longer carries the message
    the server sent. *)
Theorem execute_query_percent_message :
  fst <$> ExecuteQuery
            (cannedPlatform (okResponse "{}")
               (failedEnvelope "unrecognized token: '%d'") true)
            (d1At 1%positive) "db" "SELECT '%d'" [] demoWorld
  = Some (Err "request was not successful: unrecognized token: '%!d(MISSING)'").
Proof. vm_compute. reflexivity. Qed.

End cloudflare_props.

(** ** R2: user metadata through headers (C3) *)
Module r2_props.
Import cloudflare GoFacts.

#[local] Arguments HasPrefix : simpl never.
#[local] Arguments TrimPrefix : simpl never.

(** *** What the metadata loops compute *)

Lemma canonical_prefixed k :
  CanonicalMIMEHeaderKey (metadataPrefix +:+ k) = metadataPrefix +:+ metaKey k.
Proof.
  unfold metaKey. apply TrimPrefix_split.
  unfold CanonicalMIMEHeaderKey.
  destruct (allBytes validHeaderFieldByte (metadataPrefix +:+ k)).
  - reflexivity.
  - apply HasPrefix_app.
Qed.

Lemma prefixed_neq j k :
  HasPrefix k metadataPrefix = false -> metadataPrefix +:+ j <> k.
Proof. intros H <-. by rewrite HasPrefix_app in H. Qed.

Lemma addMetadata_frame entries : forall req,
  Method (addMetadata req entries) = Method req /\
  URL (addMetadata req entries) = URL req /\
  Body (addMetadata req entries) = Body req.
Proof.
  induction entries as [|kv entries IH]; intros req; [done|].
  unfold addMetadata in *. simpl. by destruct (IH (addHeader req (metadataPrefix +:+ kv.1) kv.2)) as (-> & -> & ->).
Qed.


Lemma extract_from (entries : list (string * list string)) :
  forall acc : gmap string string,
  NoDup entries.*1 ->
  (forall k v, (k, v) ∈ entries -> HasPrefix k metadataPrefix = true -> v <> []) ->
  exists md : gmap string string,
    foldl metadataStep (Some acc) entries = Some md /\
    forall j, md !! j = match (list_to_map entries : gmap string (list string))
                               !! (metadataPrefix +:+ j) with
                        | Some (v0 :: _) => Some v0
                        | _ => acc !! j
                        end.
Proof.
  induction entries as [|[k v] entries IH]; intros acc Hdup Hne.
  - exists acc. split; [done|]. intros j. by rewrite list_to_map_nil, lookup_empty.
  - rewrite fmap_cons in Hdup. cbn [fst] in Hdup.
    apply NoDup_cons in Hdup as [Hk Hdup].
    change (foldl metadataStep (Some acc) ((k, v) :: entries))
      with (foldl metadataStep (metadataStep (Some acc) (k, v)) entries).
    unfold metadataStep at 2. cbn [fst snd].
    destruct (HasPrefix k metadataPrefix) eqn:Hpre.
    + destruct v as [|v0 v]; [by destruct (Hne k []); [left|..]|].
      destruct (IH (<[TrimPrefix k metadataPrefix := v0]> acc) Hdup) as (md & -> & Hmd).
      { intros k' v' Hin. apply Hne. by right. }
      exists md. split; [done|]. intros j. rewrite Hmd, list_to_map_cons.
      destruct (decide (k = metadataPrefix +:+ j)) as [->|Hkj].
      * rewrite not_elem_of_list_to_map_1 by done.
        by rewrite TrimPrefix_app, !lookup_insert_eq.
      * rewrite !lookup_insert_ne; [done|done|].
        intros <-. apply Hkj. by apply TrimPrefix_split.
    + destruct (IH acc Hdup) as (md & -> & Hmd).
      { intros k' v' Hin. apply Hne. by right. }
      exists md. split; [done|]. intros j. rewrite Hmd, list_to_map_cons.
      rewrite lookup_insert_ne; [done|]. intros ->. by rewrite HasPrefix_app in Hpre.
Qed.

Lemma extractMetadata_spec (h : Go.Header) (entries : list (string * list string)) :
  entries ≡ₚ map_to_list h ->
  (forall k, HasPrefix k metadataPrefix = true -> h !! k <> Some []) ->
  exists md,
    extractMetadata entries = Some md /\
    forall j, md !! j = match h !! (metadataPrefix +:+ j) with
                        | Some (v0 :: _) => Some v0
                        | _ => None
                        end.
Proof.
  intros Hperm Hne.
  assert (NoDup entries.*1) as Hdup.
  { rewrite Hperm. apply NoDup_fst_map_to_list. }
  destruct (extract_from entries ∅ Hdup) as (md & Hmd & Hlook).
  - intros k v Hin Hpre ->. apply (Hne k Hpre).
    rewrite Hperm in Hin. by apply elem_of_map_to_list.
  - exists md. split; [done|]. intros j. rewrite Hlook.
    rewrite (list_to_map_proper _ _ Hdup Hperm), list_to_map_to_list, lookup_empty.
    done.
Qed.





Section R2.
Context {any : Type} (P : Platform any (gmap string StoredObject)).


End R2.

Example metaKey_user : metaKey "user" = "User".
Proof. reflexivity. Qed.

Example metaKey_canonical : metaKey "Content-Id" = "Content-Id".
Proof. reflexivity. Qed.

(** Two keys that differ in case only are sent under one header. *)
Example metaKey_collision : metaKey "user" = metaKey "USER".
Proof. reflexivity. Qed.


Example roundtrip_canonical_keys :
  demoRoundTrip {["User" := "john"; "Content-Id" := "7"]}
  = Some (map_to_list ({["User" := "john"; "Content-Id" := "7"]} : gmap string string)).
Proof. vm_compute. reflexivity. Qed.



End r2_props.

(** ** Escaping and URL paths *)
Module EscapeFacts.
Import Go GoFacts.

Lemma HasPrefix_refl s : HasPrefix s s = true.
Proof. rewrite <- (append_empty_r s) at 1. apply HasPrefix_app. Qed.

Lemma app_tail_neq {A} (l : list A) x : l ++ [x] <> l.
Proof. intros H%(f_equal length). rewrite length_app in H. simpl in H. lia. Qed.

Lemma unescape_step (c : ascii) (s : string) (mode : encoding) :
  unescape (escape (String c s) mode) mode
  = match unescape (escape s mode) mode with
    | Some t => Some (String c t)
    | None => None
    end.
Proof. destruct mode; destruct c as [[] [] [] [] [] [] [] []]; reflexivity. Qed.

Lemma unescape_escape (s : string) (mode : encoding) :
  unescape (escape s mode) mode = Some s.
Proof. induction s as [|c s IH]; [done|]. by rewrite unescape_step, IH. Qed.

Lemma escape_inj (s t : string) (mode : encoding) :
  escape s mode = escape t mode -> s = t.
Proof.
  intros H. apply (f_equal (fun x => unescape x mode)) in H.
  rewrite !unescape_escape in H. by injection H.
Qed.





End EscapeFacts.

(** ** Package firebase: the wrappers and the context *)
Module firebase_extra.
Import Go firebase GoFacts.

(** X1. A request whose Authorization header is ["Bearer "] with nothing
    after it is rejected by the library itself: [VerifyIDToken] fails on
    the empty token before the SDK is asked, and both wrappers answer 401
    with the same message whatever the verifier would say. *)
Theorem empty_token_never_verified (fa : FirebaseAuth) (next : Handler ResponseRecorder)
    (w : ResponseRecorder) (r : Request) :
  Header_Get (Header r) "Authorization" = "Bearer " ->
  VerifyIDToken fa (Ctx r) "" = Err "id token is empty" /\
  AuthMiddleware fa next w r
  = http_Error w "Invalid token: id token is empty" StatusUnauthorized /\
  RequireAuth fa next w r
  = http_Error w "Invalid token: id token is empty" StatusUnauthorized.
Proof.
  intros Hheader. split; [done|].
  unfold AuthMiddleware, RequireAuth, GetTokenFromRequest. by rewrite Hheader.
Qed.

Lemma empty_token_never_verified_witness :
  Code (AuthMiddleware testVerifier greet NewRecorder (requestWith (Some "Bearer "))) = 401.
Proof.
  rewrite (proj1 (proj2 (empty_token_never_verified testVerifier greet NewRecorder
                           (requestWith (Some "Bearer ")) eq_refl))).
  reflexivity.
Defined.

(** X2. What a rejected request is answered on a fresh writer: status
    401, a plain-text body that is the error message and a newline (the
    message of the extraction, or ["Invalid token: "] and the message of
    the verification, so the text of the SDK's error reaches the caller),
    the two headers [http.Error] sets, and no [WWW-Authenticate]
    challenge. *)
Theorem rejection_response (fa : FirebaseAuth) (next : Handler ResponseRecorder)
    (r : Request) (err : error) :
  authenticate fa r = Err err ->
  let out := AuthMiddleware fa next NewRecorder r in
  Code out = 401 /\
  Body out = match GetTokenFromRequest r with
             | Err _ => err
             | Ok _ => "Invalid token: " +:+ err
             end +:+ newline /\
  Header_Get (HeaderMap out) "Content-Type" = "text/plain; charset=utf-8" /\
  Header_Get (HeaderMap out) "X-Content-Type-Options" = "nosniff" /\
  Header_Get (HeaderMap out) "WWW-Authenticate" = "".
Proof.
  unfold authenticate, AuthMiddleware. intros Hfail.
  destruct (GetTokenFromRequest r) as [idToken|err'].
  - rewrite Hfail. by repeat split.
  - injection Hfail as <-. by repeat split.
Qed.

Lemma rejection_response_witness :
  Body (AuthMiddleware testVerifier greet NewRecorder (requestWith None))
  = "authorization header is required" +:+ newline.
Proof.
  exact (proj1 (proj2 (rejection_response testVerifier greet (requestWith None)
                         "authorization header is required" eq_refl))).
Defined.

(** X3. The wrapper extends the context of the request: every value
    bound under a key other than its own two is what the downstream
    handler finds under that key. *)
Theorem wrapper_extends_context (fa : FirebaseAuth) (next : Handler ResponseRecorder)
    (w : ResponseRecorder) (r r' : Request) (k : ctxKey) :
  r' ∈ (AuthMiddleware fa (spy next) (w, []) r).2 ->
  k <> uidKey -> k <> tokenKey ->
  Value (Ctx r') k = Value (Ctx r) k.
Proof.
  unfold AuthMiddleware. intros Hin Huid Htoken.
  destruct (GetTokenFromRequest r) as [idToken|err]; [|by apply elem_of_nil in Hin].
  destruct (VerifyIDToken fa (Ctx r) idToken) as [token|err]; [|by apply elem_of_nil in Hin].
  cbn [snd spy fst app] in Hin. apply list_elem_of_singleton in Hin as ->.
  unfold uidKey, tokenKey in *.
  cbn [Ctx WithContext WithValue Value ctxKey_eqb].
  destruct k as [s|ty s]; [|done].
  rewrite (proj2 (String.eqb_neq "uid" s)) by congruence.
  by rewrite (proj2 (String.eqb_neq "token" s)) by congruence.
Qed.

Lemma wrapper_extends_context_witness :
  let r := {| Method := "GET"; Path := "/";
              Header := Header_Add ∅ "Authorization" "Bearer valid-token";
              Ctx := [(contextKey "trace", anyString "t-1")] |} in
  let r' := WithContext r
              [(uidKey, anyString "user-123");
               (tokenKey, anyToken {| UID := "user-123"; Issuer := "test";
                                      Subject := "user-123"; Claims := [] |});
               (contextKey "trace", anyString "t-1")] in
  Value (Ctx r') (contextKey "trace") = Value (Ctx r) (contextKey "trace").
Proof.
  intros r r'.
  apply (wrapper_extends_context testVerifier greet NewRecorder r r' (contextKey "trace")).
  - assert ((AuthMiddleware testVerifier (spy greet) (NewRecorder, []) r).2 = [r']) as ->
      by (vm_compute; reflexivity).
    by apply list_elem_of_singleton.
  - discriminate.
  - discriminate.
Defined.

Lemma Value_foreign (extra ctx : Context) (k : ctxKey) :
  (forall b, b ∈ extra -> exists typ s, b.1 = foreignKey typ s) ->
  (exists s, k = contextKey s) ->
  Value (extra ++ ctx) k = Value ctx k.
Proof.
  intros Hextra [s ->]. induction extra as [|[k' v] extra IH]; [done|].
  destruct (Hextra (k', v)) as (typ & s' & Hk'); [by left|]. simpl in Hk'. subst k'.
  simpl. apply IH. intros b Hb. apply Hextra. by right.
Qed.

(** X4. The keys of the package are of a type of its own, so bindings
    made under keys of any other type, also under the plain strings
    ["uid"] and ["token"], do not reach the accessors: with any number of
    such bindings put in front of a context, [GetUIDFromContext] and
    [GetTokenFromContext] return what they return without them. *)
Theorem accessors_ignore_foreign_keys (extra ctx : Context) :
  (forall b, b ∈ extra -> exists typ s, b.1 = foreignKey typ s) ->
  GetUIDFromContext (extra ++ ctx) = GetUIDFromContext ctx /\
  GetTokenFromContext (extra ++ ctx) = GetTokenFromContext ctx.
Proof.
  intros Hextra. unfold GetUIDFromContext, GetTokenFromContext.
  rewrite !Value_foreign; [done|done|by eexists|done|by eexists].
Qed.

Lemma accessors_ignore_foreign_keys_witness :
  GetUIDFromContext ([(foreignKey "string" "uid", anyString "mallory")] ++
                     [(uidKey, anyString "user-123")])
  = GetUIDFromContext [(uidKey, anyString "user-123")].
Proof.
  apply (accessors_ignore_foreign_keys
           [(foreignKey "string" "uid", anyString "mallory")]
           [(uidKey, anyString "user-123")]).
  intros b Hb. apply list_elem_of_singleton in Hb as ->. by eexists _, _.
Defined.

End firebase_extra.

(** ** Package firebase: the user model *)
Module firebase_user_props.
Import firebase_user.

Lemma rangeRoles_spec rolesArr role :
  rangeRoles rolesArr role = true <-> claimString role ∈ rolesArr.
Proof.
  induction rolesArr as [|r rest IH]; simpl.
  - split; [done|]. by intros ?%elem_of_nil.
  - rewrite elem_of_cons. destruct (claimIsString r role) eqn:Hr.
    + split; [|done]. intros _. left.
      destruct r; try done. simpl in Hr. by apply String.eqb_eq in Hr as ->.
    + rewrite IH. split; [by right|]. intros [<-|H]; [|done].
      simpl in Hr. by rewrite String.eqb_refl in Hr.
Qed.

(** X5. [HasRole] grants a role in exactly two cases: the claim
    ["roles"] is an array that holds the role as a string, or the claim
    named as the role is the boolean [true].  A user without claims has
    no role; a ["roles"] claim of any other shape, and a role claim that
    is not a boolean, grant nothing. *)
Theorem HasRole_spec {T} (u : BaseUser T) (role : string) :
  HasRole u role = true <->
  exists claims, Claims u = Some claims /\
    ((exists rolesArr, claims !! "roles" = Some (claimArray rolesArr) /\
                       claimString role ∈ rolesArr) \/
     claims !! role = Some (claimBool true)).
Proof.
  unfold HasRole. destruct (Claims u) as [claims|]; [|split; [done|by intros (? & ? & _)]].
  split.
  - intros H. exists claims. split; [done|].
    destruct (claims !! "roles") as [[| | | |rolesArr|]|] eqn:Hroles; simpl in H;
      try (right; by destruct (claims !! role) as [[|[]| | | |]|]).
    destruct (rangeRoles rolesArr role) eqn:Hfound.
    + left. exists rolesArr. split; [done|]. by apply rangeRoles_spec.
    + right. by destruct (claims !! role) as [[|[]| | | |]|].
  - intros (claims' & [= <-] & [(rolesArr & -> & Hin)|Hrole]).
    + by rewrite (proj2 (rangeRoles_spec rolesArr role) Hin).
    + rewrite Hrole. by case_match.
Qed.

Example HasRole_someUser :
  (fun u => (HasRole u "editor", HasRole u "admin", HasRole u "viewer", HasRole u "roles"))
    <$> FromFirebaseUser someUser tt
  = Some (true, true, false, false).
Proof. vm_compute. reflexivity. Qed.


(** X7. The update [ToFirebaseUpdate] builds from a user made by
    [FromFirebaseUser] sets the e-mail address, display name, photo URL
    and the two flags of the record it came from, and nothing else: the
    phone number, the password and the custom claims are never part of
    it. *)
Theorem update_of_imported_user {T} (user : auth.UserRecord) (data : T)
    (u : BaseUser T) (info : auth.UserInfo) :
  FromFirebaseUser user data = Some u ->
  auth.Info user = Some info ->
  ToFirebaseUpdate u
  = {| auth.setEmail := Some (auth.Email info);
       auth.setDisplayName := Some (auth.DisplayName info);
       auth.setPhotoURL := Some (auth.PhotoURL info);
       auth.setEmailVerified := Some (auth.EmailVerified user);
       auth.setDisabled := Some (auth.Disabled user);
       auth.setPhoneNumber := None;
       auth.setPassword := None;
       auth.setCustomClaims := None |}.
Proof.
  unfold FromFirebaseUser. intros Hu Hinfo. rewrite Hinfo in Hu.
  destruct (auth.Metadata user); [|done]. by injection Hu as <-.
Qed.

Lemma update_of_imported_user_witness :
  auth.setEmail <$> (ToFirebaseUpdate <$> FromFirebaseUser someUser tt)
  = Some (Some "ada@example.com").
Proof.
  destruct (FromFirebaseUser someUser tt) as [u|] eqn:Hu; [|discriminate Hu].
  change (Some (auth.setEmail (ToFirebaseUpdate u)) = Some (Some "ada@example.com")).
  by rewrite (update_of_imported_user someUser tt u _ Hu eq_refl).
Defined.

End firebase_user_props.

(** ** Package cloudflare: what every call does *)
Module cloudflare_extra.
Import Go cloudflare GoFacts EscapeFacts.

Lemma addMetadata_other entries k : forall req : Request,
  HasPrefix k metadataPrefix = false ->
  Header (addMetadata req entries) !! k = Header req !! k.
Proof.
  induction entries as [|kv entries IH]; intros req Hk; [done|].
  change (addMetadata req (kv :: entries))
    with (addMetadata (addHeader req (metadataPrefix +:+ kv.1) kv.2) entries).
  rewrite IH by done. simpl. unfold Header_Add.
  rewrite r2_props.canonical_prefixed. apply lookup_insert_ne.
  intros <-. by rewrite HasPrefix_app in Hk.
Qed.

Section Clients.
Context {any Remote : Type} (P : Platform any Remote).

Lemma account_prefix cfg a b rest :
  HasPrefix (BaseURL cfg +:+ a +:+ AccountID cfg +:+ String "/" b +:+ rest)
    (BaseURL cfg +:+ a +:+ AccountID cfg +:+ "/") = true.
Proof.
  replace (BaseURL cfg +:+ a +:+ AccountID cfg +:+ String "/" b +:+ rest)
    with ((BaseURL cfg +:+ a +:+ AccountID cfg +:+ "/") +:+ b +:+ rest)
    by (by rewrite !append_assoc).
  apply HasPrefix_app.
Qed.

(** What a call of a client does, step by step: either it fails before
    anything is sent and leaves the world as it was, or it hands one
    request to the transport, and the answer decides the reply. *)
Lemma client_call_anatomy (c : Call) (p : ptr) (client : HTTPClient)
    (w w' : World Remote) (reply : Reply) :
  perform P c w = Some (reply, w') ->
  clientOf c = Some (p, client) ->
  (w' = w /\ exists e, replyError reply = Some e) \/
  (exists cfg req,
     heap w !! p = Some cfg /\
     w' = {| heap := heap w; environ := environ w;
             remote := (roundTrip P (ClientTimeout client) req (remote w)).2;
             sent := sent w ++ [req] |} /\
     Method req = methodOf c /\
     Header_Get (Header req) "Authorization" = "Bearer " +:+ APIToken cfg /\
     HasPrefix (URL req) (BaseURL cfg +:+ "/accounts/" +:+ AccountID cfg +:+ "/") = true /\
     match (roundTrip P (ClientTimeout client) req (remote w)).1 with
     | Err e => replyError reply = Some ("error making request: " +:+ e)
     | Ok resp =>
         StatusCode resp = 200 \/
         exists e, replyError reply = Some e /\
           (HasPrefix e ("unexpected status code: " +:+ itoa (StatusCode resp)) = true \/
            StatusCode resp = 404 /\ isNotFound e = true)
     end).
Proof.
  intros Hrun Hclient.
  destruct c; try discriminate Hclient; injection Hclient as <- <-.
  all: run_in Hrun.
  all: try (left; split; [by destruct w|by eexists]).
  all: right;
    match goal with
    | H : roundTrip _ _ ?req _ = _, Hc : heap _ !! _ = Some ?cfg |- _ =>
        exists cfg, req; rewrite H
    end.
  all: cbn [fst snd]; split; [first [assumption|reflexivity]|]; split; [reflexivity|].
  all: try match goal with
           | |- context [addMetadata ?r ?e] =>
               rewrite (proj1 (r2_props.addMetadata_frame e r)),
                 (proj1 (proj2 (r2_props.addMetadata_frame e r)))
           end.
  all: cbn [Method URL addHeader setHeader withHeader methodOf].
  all: split; [reflexivity|].
  all: split;
    [unfold Header_Get; change (CanonicalMIMEHeaderKey "Authorization") with "Authorization";
     try match goal with
         | |- context [addMetadata ?r ?e] =>
             rewrite (addMetadata_other e "Authorization" r eq_refl)
         end;
     cbn [Header addHeader setHeader withHeader]; unfold Header_Add, Header_Set;
     change (CanonicalMIMEHeaderKey "Authorization") with "Authorization";
     change (CanonicalMIMEHeaderKey "Content-Type") with "Content-Type";
     rewrite ?(lookup_insert_ne _ "Content-Type" "Authorization") by discriminate;
     by rewrite ?lookup_empty, lookup_insert_eq|].
  all: split; [first [apply account_prefix | by rewrite !append_assoc; apply account_prefix]|].
  all: try reflexivity.
  all: try (left; match goal with H : negb (_ =? _) = false |- _ =>
                    by apply negb_false_iff, Z.eqb_eq in H end).
  all: right; eexists; split; [reflexivity|].
  all: first [ left; first [apply HasPrefix_refl | rewrite <- append_assoc; apply HasPrefix_app]
             | right; split; [by apply Z.eqb_eq|apply HasPrefix_app] ].
Qed.



(** X10. An error of the transport (no connection, a timeout) fails the
    call with that error behind ["error making request: "]: it is never
    swallowed and never turned into a result. *)
Theorem transport_error_surfaces (c : Call) (p : ptr) (client : HTTPClient)
    (w w' : World Remote) (reply : Reply) (req : Request) (err : error) :
  perform P c w = Some (reply, w') ->
  clientOf c = Some (p, client) ->
  sent w' = sent w ++ [req] ->
  (roundTrip P (ClientTimeout client) req (remote w)).1 = Err err ->
  replyError reply = Some ("error making request: " +:+ err).
Proof.
  intros Hrun Hclient Hsent Htrip.
  destruct (client_call_anatomy c p client w w' reply Hrun Hclient)
    as [[-> _]|(cfg' & req' & Hcfg' & -> & _ & _ & _ & Hreply)].
  - symmetry in Hsent. by apply app_tail_neq in Hsent.
  - cbn [sent] in Hsent. apply app_inj_tail in Hsent as [_ ->].
    by rewrite Htrip in Hreply.
Qed.


(** X12. A 200 answer whose envelope says [success: false] fails
    [ListKeys], [ListObjects] and [UploadObject] with the
    not-successful error, whatever result the envelope carries. *)
Theorem unsuccessful_envelope_fails (k : KVClient) (r : R2Client)
    (namespaceID bucketName prefix key content contentType : string)
    (metadata : option (gmap string string)) (w w' : World Remote) (resp : Response) :
  StatusCode resp = 200 ->
  (forall res keys, ListKeys P k namespaceID prefix w = Some (res, w') ->
     answered P (ClientTimeout (kv_client k)) w w' resp ->
     decodeKeys P (RespBody resp) = Ok (false, keys) ->
     res = Err "request was not successful") /\
  (forall res objects, ListObjects P r bucketName prefix w = Some (res, w') ->
     answered P (ClientTimeout (r2_client r)) w w' resp ->
     decodeObjects P (RespBody resp) = Ok (false, objects) ->
     res = Err "request was not successful") /\
  (forall res object,
     UploadObject P r bucketName key content contentType metadata w = Some (res, w') ->
     answered P (ClientTimeout (r2_client r)) w w' resp ->
     decodeObject P (RespBody resp) = Ok (false, object) ->
     res = Err "request was not successful").
Proof.
  intros Hstatus. unfold StatusOK.
  repeat split; intros res x Hrun (req & remote' & Hsent & Htrip) Hdecode.
  all: unfold ListKeys, ListObjects, UploadObject in Hrun.
  all: unfold NewRequest, bind, ret, load, Do in Hrun.
  all: cbn beta iota zeta delta [heap environ remote sent fst snd negb] in Hrun.
  all: split_run Hrun.
  all: match type of Hrun with
       | Some (_, _) = Some (_, _) => injection Hrun as <- <-
       end.
  all: cbn [sent] in Hsent;
    try (by apply app_tail_neq in Hsent || (symmetry in Hsent; by apply app_tail_neq in Hsent)).
  all: apply app_inj_tail in Hsent as [_ <-].
  all: match goal with
       | H : roundTrip _ _ _ _ = _ |- _ =>
           rewrite H in Htrip; first [discriminate Htrip | injection Htrip as <- <-]
       end.
  all: try reflexivity.
  all: unfold StatusOK in *.
  all: try (match goal with
            | H : negb (StatusCode _ =? 200) = true |- _ => rewrite Hstatus in H; discriminate H
            end).
  all: match goal with
       | H : ?t = _, H' : ?t = _ |- _ =>
           rewrite H in H'; first [discriminate H' | injection H' as ? ?; subst; discriminate]
       end.
Qed.

Lemma marshalAll_fails (params : list any) (v : any) (e : error) :
  v ∈ params -> toJSON P v = Err e -> exists e', marshalAll P params = Err e'.
Proof.
  intros Hin Hv. induction params as [|x params IH]; [by apply elem_of_nil in Hin|].
  apply elem_of_cons in Hin as [<-|Hin]; simpl.
  - rewrite Hv. by eexists.
  - destruct (toJSON P x); [|by eexists].
    destruct (IH Hin) as (e' & ->). by eexists.
Qed.

(** X13. A value that cannot be encoded as JSON fails the call before
    anything is sent and leaves the world as it was: [WriteJSON] fails
    with the encoding error, without even looking at its configuration,
    and [ExecuteQuery] with such a value among its parameters fails with
    a marshaling error. *)
Theorem encoding_failure_sends_nothing (k : KVClient) (d : D1Client)
    (namespaceID key databaseID query : string) (value : any) (params : list any)
    (expiration : option Z) (e : error) (w : World Remote) :
  toJSON P value = Err e ->
  WriteJSON P k namespaceID key value expiration w
  = Some (Err ("error encoding value to JSON: " +:+ e), w) /\
  (value ∈ params -> is_Some (heap w !! d1_config d) ->
   exists e', ExecuteQuery P d databaseID query params w
              = Some (Err ("error marshaling request: " +:+ e'), w)).
Proof.
  intros Hvalue. split.
  - unfold WriteJSON. by rewrite Hvalue.
  - intros Hin [cfg Hcfg].
    destruct (marshalAll_fails params value e Hin Hvalue) as (e' & He').
    exists e'. unfold ExecuteQuery, requestDocument, bind, load. rewrite Hcfg.
    destruct params as [|x params]; [by apply elem_of_nil in Hin|].
    cbn [length Nat.ltb Nat.leb Params]. by rewrite He'.
Qed.

(** X14. Panics and the nil configuration.  A constructor or a call of a
    client whose configuration pointer is nil panics, where one might
    expect an error; the one exception is [WriteJSON] of a value that
    cannot be encoded, which fails before it looks at the configuration.
    With a configuration in place no constructor and no call panics,
    [GetObject] aside. *)
Theorem panics_on_nil_config_only (c : Call) (p : ptr) (client : HTTPClient)
    (w : World Remote) :
  clientOf c = Some (p, client) \/ constructs c p = true ->
  (heap w !! p = None ->
   match c with
   | CallWriteJSON _ _ _ value _ =>
       match toJSON P value with
       | Ok _ => perform P c w = None
       | Err e => perform P c w
                  = Some (ReplyDone (Err ("error encoding value to JSON: " +:+ e)), w)
       end
   | _ => perform P c w = None
   end) /\
  (is_Some (heap w !! p) ->
   (forall r bucketName key, c <> CallGetObject r bucketName key) ->
   is_Some (perform P c w)).
Proof.
  intros Hcall. split.
  - intros Hnil. destruct Hcall as [Hclient|Hconfig].
    + destruct c; try discriminate Hclient; injection Hclient as <- <-.
      all: unfold perform, ExecuteQuery, ListKeys, WriteJSON, ReadJSON, WriteValue,
        ReadValue, DeleteValue, ListObjects, UploadObject, GetObject, DeleteObject,
        bind, load.
      all: try by rewrite Hnil.
      destruct (toJSON P value); [by rewrite Hnil|done].
    + destruct c; try discriminate Hconfig; simpl in Hconfig;
        apply Pos.eqb_eq in Hconfig as ->.
      all: unfold perform, NewStorage, NewD1Client, NewR2Client, NewKVClient, bind, load.
      all: by rewrite Hnil.
  - intros [cfg Hcfg] Hget. destruct Hcall as [Hclient|Hconfig].
    + destruct c; try discriminate Hclient; injection Hclient as <- <-.
      all: try (by destruct (Hget _ _ _ eq_refl)).
      all: unfold perform, ExecuteQuery, ListKeys, WriteJSON, ReadJSON, WriteValue,
        ReadValue, DeleteValue, ListObjects, UploadObject, GetObject, DeleteObject.
      all: unfold NewRequest, bind, load, ret, Do; rewrite ?Hcfg.
      all: repeat (match goal with
                   | |- context [match ?x with _ => _ end] =>
                       lazymatch x with
                       | context [match _ with _ => _ end] => fail
                       | _ => destruct x eqn:?
                       end
                   end;
                   cbn beta iota zeta delta [heap environ remote sent fst snd negb];
                   rewrite ?Hcfg).
      all: by eexists.
    + destruct c; try discriminate Hconfig; simpl in Hconfig;
        apply Pos.eqb_eq in Hconfig as ->.
      all: unfold perform, bind, ret.
      all: rewrite ?(cloudflare_props.NewStorage_run), ?(cloudflare_props.NewD1Client_run),
             ?(cloudflare_props.NewR2Client_run), ?(cloudflare_props.NewKVClient_run), Hcfg.
      all: by eexists.
Qed.

(** X21. The timeout is copied into a client when it is built, the
    other fields of the configuration are read at every call: writing
    another timeout into the configuration of a client changes nothing
    in what any of its calls does, replies or sends. *)
Theorem timeout_fixed_at_construction (c : Call) (p : ptr) (client : HTTPClient)
    (cfg : CloudflareConfig) (timeout : Z) (w : World Remote) :
  clientOf c = Some (p, client) ->
  heap w !! p = Some cfg ->
  let h' := <[p := withTimeout timeout cfg]> (heap w) in
  perform P c (withHeap h' w) = prod_map id (withHeap h') <$> perform P c w.
Proof.
  intros Hclient Hcfg h'.
  assert (h' !! p = Some (withTimeout timeout cfg)) as Hcfg' by apply lookup_insert_eq.
  clearbody h'.
  destruct c; try discriminate Hclient; injection Hclient as <- <-.
  all: unfold perform, ExecuteQuery, ListKeys, WriteJSON, ReadJSON, WriteValue, ReadValue,
    DeleteValue, ListObjects, UploadObject, GetObject, DeleteObject.
  all: unfold NewRequest, bind, load, ret, panic, Do, withHeap.
  all: cbn beta iota zeta delta [heap environ remote sent fst snd].
  all: try (destruct (toJSON P value); [|reflexivity]).
  all: cbn beta iota zeta delta [heap environ remote sent fst snd].
  all: rewrite Hcfg, Hcfg'.
  all: cbn beta iota zeta delta [withTimeout APIToken AccountID BaseURL].
  all: split_goal.
Qed.

(** X22. [NewStorageFromEnv] never fails and never panics: it allocates
    a configuration with the two environment variables as token and
    account (the empty string for a variable that is not set), the
    default base URL and timeout zero, and builds the three clients on
    that one configuration, each with an HTTP client without timeout. *)
Theorem storage_from_env (w : World Remote) :
  let p := fresh (dom (heap w)) in
  let cfg := {| APIToken := default "" (environ w !! "CLOUDFLARE_API_TOKEN");
                AccountID := default "" (environ w !! "CLOUDFLARE_ACCOUNT_ID");
                BaseURL := defaultBaseURL; Timeout := 0 |} in
  exists s,
    NewStorageFromEnv w = Some (s, withHeap (<[p := cfg]> (heap w)) w) /\
    heap w !! p = None /\
    configs s = [p; p; p] /\
    timeouts s = [0; 0; 0].
Proof.
  intros p cfg. unfold NewStorageFromEnv, bind, Getenv, new. cbn [environ heap].
  fold p cfg. rewrite cloudflare_props.NewStorage_run. cbn [heap].
  rewrite lookup_insert_eq. cbn [fmap option_fmap option_map].
  eexists. split; [|split].
  - f_equal. f_equal. unfold withHeap. cbn [heap environ remote sent].
    by rewrite insert_insert_eq.
  - apply not_elem_of_dom, is_fresh.
  - by split.
Qed.

(** X23. [NewStorage] on a configuration made by [NewConfig]: the three
    clients share that configuration, which holds the default base URL
    and is left as [NewConfig] made it, and each HTTP client has the
    timeout of 30 seconds. *)
Theorem storage_from_config (apiToken accountID : string) (w : World Remote) :
  let p := fresh (dom (heap w)) in
  let cfg := {| APIToken := apiToken; AccountID := accountID;
                BaseURL := defaultBaseURL; Timeout := 30 * Second |} in
  exists s,
    (config <- NewConfig apiToken accountID;; NewStorage config) w
    = Some (s, withHeap (<[p := cfg]> (heap w)) w) /\
    heap w !! p = None /\
    configs s = [p; p; p] /\
    timeouts s = [30 * Second; 30 * Second; 30 * Second].
Proof.
  intros p cfg. unfold NewConfig, bind, new. cbn [environ heap].
  fold p cfg. rewrite cloudflare_props.NewStorage_run. cbn [heap].
  rewrite lookup_insert_eq. cbn [fmap option_fmap option_map].
  eexists. split; [|split].
  - f_equal. f_equal. unfold withHeap. cbn [heap environ remote sent].
    by rewrite insert_insert_eq.
  - apply not_elem_of_dom, is_fresh.
  - by split.
Qed.

End Clients.



(** X10 on a concrete run: the transport reports a timeout. *)
Lemma transport_error_surfaces_witness :
  match perform (failingPlatform "context deadline exceeded")
          (CallListKeys (kvAt 1%positive) "ns" "") demoWorld with
  | Some (reply, _) =>
      replyError reply = Some "error making request: context deadline exceeded"
  | None => False
  end.
Proof.
  destruct (perform _ _ _) as [[reply w']|] eqn:Hrun; [|by vm_compute in Hrun].
  pose proof Hrun as Hw. vm_compute in Hw. injection Hw as _ Hw.
  eassert (sent w' = sent demoWorld ++ [_]) as Hsent by (rewrite <- Hw; reflexivity).
  exact (transport_error_surfaces (failingPlatform "context deadline exceeded")
           (CallListKeys (kvAt 1%positive) "ns" "") 1%positive
           {| ClientTimeout := 30 * Second |} demoWorld w' reply _
           "context deadline exceeded" Hrun eq_refl Hsent eq_refl).
Defined.


(** X12 on a concrete run: [ListKeys] answered [success: false]. *)
Lemma unsuccessful_envelope_fails_witness :
  match ListKeys (cannedPlatform (okResponse "{}") emptyEnvelope false)
          (kvAt 1%positive) "ns" "" demoWorld with
  | Some (res, _) => res = Err "request was not successful"
  | None => False
  end.
Proof.
  destruct (ListKeys _ _ _ _ _) as [[res w']|] eqn:Hrun; [|by vm_compute in Hrun].
  pose proof Hrun as Hw. vm_compute in Hw. injection Hw as _ Hw.
  eassert (sent w' = sent demoWorld ++ [_]) as Hsent by (rewrite <- Hw; reflexivity).
  destruct (unsuccessful_envelope_fails
              (cannedPlatform (okResponse "{}") emptyEnvelope false)
              (kvAt 1%positive) (r2At 1%positive) "ns" "bucket" "" "key" "" "" None
              demoWorld w' (okResponse "{}") eq_refl) as (Hkeys & _).
  apply (Hkeys res [] Hrun); [|reflexivity].
  eexists _, _. split; [exact Hsent|reflexivity].
Defined.

(** X13 on a concrete run: the encoder refuses the value. *)
Lemma encoding_failure_sends_nothing_witness :
  WriteJSON pickyPlatform (kvAt 1%positive) "ns" "k" "NaN" None demoWorld
  = Some (Err "error encoding value to JSON: json: unsupported value: NaN", demoWorld).
Proof.
  exact (proj1 (encoding_failure_sends_nothing pickyPlatform (kvAt 1%positive)
                  (d1At 1%positive) "ns" "k" "db" "SELECT 1" "NaN" [] None
                  "json: unsupported value: NaN" demoWorld eq_refl)).
Defined.

(** X14 on a concrete run: a client on a configuration that is not
    there. *)
Lemma panics_on_nil_config_only_witness :
  perform (cannedPlatform (okResponse "v") emptyEnvelope true)
    (CallReadValue (kvAt 2%positive) "ns" "k") demoWorld = None.
Proof.
  exact (proj1 (panics_on_nil_config_only
                  (cannedPlatform (okResponse "v") emptyEnvelope true)
                  (CallReadValue (kvAt 2%positive) "ns" "k") 2%positive
                  {| ClientTimeout := 30 * Second |} demoWorld (or_introl eq_refl))
           eq_refl).
Defined.

(** X21 on a concrete run: the timeout of the configuration is set to
    five nanoseconds after the client was built. *)
Lemma timeout_fixed_at_construction_witness :
  let h' := <[1%positive := withTimeout 5 (someConfig "https://api.example")]>
              (heap demoWorld) in
  perform (cannedPlatform (okResponse "v") emptyEnvelope true)
    (CallReadValue (kvAt 1%positive) "ns" "k") (withHeap h' demoWorld)
  = prod_map id (withHeap h')
      <$> perform (cannedPlatform (okResponse "v") emptyEnvelope true)
            (CallReadValue (kvAt 1%positive) "ns" "k") demoWorld.
Proof.
  exact (timeout_fixed_at_construction
           (cannedPlatform (okResponse "v") emptyEnvelope true)
           (CallReadValue (kvAt 1%positive) "ns" "k") 1%positive
           {| ClientTimeout := 30 * Second |} (someConfig "https://api.example") 5
           demoWorld eq_refl eq_refl).
Defined.

End cloudflare_extra.

(** ** R2: the metadata [GetObject] returns *)
Module r2_extra.
Import Go cloudflare GoFacts EscapeFacts.

#[local] Arguments HasPrefix : simpl never.
#[local] Arguments TrimPrefix : simpl never.

Lemma metadataStep_panicked entries : foldl metadataStep None entries = None.
Proof. by induction entries. Qed.

Lemma extract_none_empty (entries : list (string * list string)) :
  forall acc md k,
  foldl metadataStep (Some acc) entries = Some md ->
  HasPrefix k metadataPrefix = true -> (k, []) ∉ entries.
Proof.
  induction entries as [|[k' v] entries IH]; intros acc md k Hrun Hpre Hin.
  - by apply elem_of_nil in Hin.
  - change (foldl metadataStep (Some acc) ((k', v) :: entries))
      with (foldl metadataStep (metadataStep (Some acc) (k', v)) entries) in Hrun.
    unfold metadataStep at 2 in Hrun. cbn [fst snd] in Hrun.
    apply elem_of_cons in Hin as [[= <- <-]|Hin].
    + rewrite Hpre in Hrun. by rewrite metadataStep_panicked in Hrun.
    + destruct (HasPrefix k' metadataPrefix).
      * destruct v; [by rewrite metadataStep_panicked in Hrun|].
        by apply (IH _ _ _ Hrun Hpre).
      * by apply (IH _ _ _ Hrun Hpre).
Qed.

Section R2.
Context {any Remote : Type} (P : Platform any Remote).

(** X15. Whatever the transport is, a [GetObject] that returns after a
    200 answer returns the body of the response untouched and, as
    metadata, exactly the response headers whose name starts with
    [X-Metadata-], each under its name without that prefix and with its
    first value.  It returns only when no such header has an empty list
    of values: on a response with one, the call panics. *)
Theorem get_object_metadata (r : R2Client) (bucketName key : string)
    (w w' : World Remote) (res : result (Stream * gmap string string)) (resp : Response) :
  GetObject P r bucketName key w = Some (res, w') ->
  answered P (ClientTimeout (r2_client r)) w w' resp ->
  StatusCode resp = 200 ->
  (forall k, HasPrefix k metadataPrefix = true -> RespHeader resp !! k <> Some []) /\
  exists md,
    res = Ok (RespBody resp, md) /\
    forall j, md !! j = match RespHeader resp !! (metadataPrefix +:+ j) with
                        | Some (v0 :: _) => Some v0
                        | _ => None
                        end.
Proof.
  intros Hrun (req & remote' & Hsent & Htrip) Hstatus.
  unfold GetObject, NewRequest, bind, ret, panic, load, Do, StatusOK in Hrun.
  destruct (heap w !! r2_config r) as [cfg|]; [|done].
  destruct (parseURL P _).
  { injection Hrun as <- <-. symmetry in Hsent. by apply app_tail_neq in Hsent. }
  cbn beta iota zeta delta [heap environ remote sent fst snd] in Hrun.
  destruct (roundTrip P _ _ _) as [answer remote1] eqn:Hanswer.
  assert (sent w' = sent w ++ [addHeader {| Method := "GET";
            URL := BaseURL cfg +:+ "/accounts/" +:+ AccountID cfg +:+
                   "/r2/buckets/" +:+ bucketName +:+ "/objects/" +:+ key;
            Header := ∅; Body := None |} "Authorization" ("Bearer " +:+ APIToken cfg)]) as Hlog.
  { destruct answer as [resp'|]; [|by injection Hrun as <- <-].
    destruct (negb _); [by injection Hrun as <- <-|].
    destruct (extractMetadata _); [|done]. by injection Hrun as <- <-. }
  rewrite Hlog in Hsent. apply app_inj_tail in Hsent as [_ <-].
  rewrite Hanswer in Htrip. injection Htrip as -> ->.
  rewrite Hstatus in Hrun. cbn [Z.eqb Pos.eqb negb] in Hrun.
  destruct (extractMetadata (rangeOrder P (RespHeader resp))) as [md|] eqn:Hmd; [|done].
  injection Hrun as <- <-.
  assert (forall k, HasPrefix k metadataPrefix = true -> RespHeader resp !! k <> Some [])
    as Hfull.
  { intros k Hpre Hk. apply (extract_none_empty _ _ _ k Hmd Hpre).
    rewrite (rangeOrder_perm P). by apply elem_of_map_to_list. }
  split; [done|]. exists md. split; [done|].
  destruct (r2_props.extractMetadata_spec (RespHeader resp) (rangeOrder P (RespHeader resp)))
    as (md' & Hmd' & Hspec); [apply rangeOrder_perm|done|].
  rewrite Hmd in Hmd'. by injection Hmd' as <-.
Qed.

(** X24. Bucket names and object keys go into the URL as they are, so
    the calls cannot tell a key that holds [/objects/] from a longer
    bucket name: [GetObject], [DeleteObject] and [UploadObject] on bucket
    [b] and key [m/objects/k] do exactly what they do on bucket
    [b/objects/m] and key [k]. *)
Theorem r2_bucket_key_confusion (r : R2Client)
    (bucketName mid key content contentType : string)
    (metadata : option (gmap string string)) (w : World Remote) :
  GetObject P r bucketName (mid +:+ "/objects/" +:+ key) w
  = GetObject P r (bucketName +:+ "/objects/" +:+ mid) key w /\
  DeleteObject P r bucketName (mid +:+ "/objects/" +:+ key) w
  = DeleteObject P r (bucketName +:+ "/objects/" +:+ mid) key w /\
  UploadObject P r bucketName (mid +:+ "/objects/" +:+ key) content contentType metadata w
  = UploadObject P r (bucketName +:+ "/objects/" +:+ mid) key content contentType metadata w.
Proof.
  unfold GetObject, DeleteObject, UploadObject.
  by rewrite !(append_assoc bucketName ("/objects/" +:+ mid)).
Qed.

End R2.

(** X15 on a concrete run: a response with one metadata header. *)
Lemma get_object_metadata_witness :
  match GetObject (cannedPlatform taggedResponse emptyEnvelope true)
          (r2At 1%positive) "bucket" "photo" demoWorld with
  | Some (res, _) =>
      exists md, res = Ok (plainBody "bytes", md) /\ md !! "User" = Some "john"
  | None => False
  end.
Proof.
  assert (exists res w' req,
            GetObject (cannedPlatform taggedResponse emptyEnvelope true)
              (r2At 1%positive) "bucket" "photo" demoWorld = Some (res, w') /\
            sent w' = sent demoWorld ++ [req]) as (res & w' & req & Hrun & Hsent)
    by (eexists _, _, _; split; vm_compute; reflexivity).
  rewrite Hrun.
  destruct (get_object_metadata (cannedPlatform taggedResponse emptyEnvelope true)
              (r2At 1%positive) "bucket" "photo" demoWorld w' res taggedResponse Hrun)
    as (_ & md & Hres & Hmd).
  - eexists _, _. split; [exact Hsent|reflexivity].
  - reflexivity.
  - exists md. split; [exact Hres|]. rewrite Hmd. vm_compute. reflexivity.
Defined.

End r2_extra.

(** ** KV: keys, and the calls against a store that keeps what it is sent *)
Module kv_props.
Import Go cloudflare GoFacts EscapeFacts.


Lemma valueURL_inj cfg namespaceID key key' :
  valueURL cfg namespaceID key = valueURL cfg namespaceID key' -> key = key'.
Proof.
  unfold valueURL. intros H. repeat apply append_inj_r in H. by apply escape_inj in H.
Qed.

(** X16. Escaping a key loses nothing, so two different keys of a
    namespace never address the same URL, whatever bytes they hold: a
    key with a slash and the key that spells the slash as [%2F] are two
    keys. *)
Theorem kv_keys_distinct_urls (cfg : CloudflareConfig) (namespaceID key key' : string) :
  key <> key' ->
  valueURL cfg namespaceID key <> valueURL cfg namespaceID key' /\
  PathUnescape (PathEscape key) = Some key.
Proof.
  intros Hkey. split; [|apply unescape_escape].
  intros Heq. by apply valueURL_inj in Heq.
Qed.

Lemma kv_keys_distinct_urls_witness :
  valueURL (someConfig "https://api.example") "ns" "a/b"
  <> valueURL (someConfig "https://api.example") "ns" "a%2Fb".
Proof.
  apply (kv_keys_distinct_urls (someConfig "https://api.example") "ns" "a/b" "a%2Fb").
  discriminate.
Defined.

Section KV.
Context {any : Type} (P : Platform any (gmap string string)).







End KV.

(** Two writes and three reads against the store, run. *)
Example kv_store_runs :
  (w1 ← snd <$> WriteValue kvPlatform (kvAt 1%positive) "ns" "a b/c" "v1" (Some 60) kvWorld;
   w2 ← snd <$> WriteValue kvPlatform (kvAt 1%positive) "ns" "a b" "v2" None w1;
   r1 ← fst <$> ReadValue kvPlatform (kvAt 1%positive) "ns" "a b/c" w2;
   r2 ← fst <$> ReadValue kvPlatform (kvAt 1%positive) "ns" "a b" w2;
   r3 ← fst <$> ReadValue kvPlatform (kvAt 1%positive) "ns" "a" w2;
   Some (r1, r2, r3))
  = Some (Ok "v1", Ok "v2", Err "key not found: a").
Proof. vm_compute. reflexivity. Qed.






End kv_props.
